(** * LibPinyinBackEnd: the libpinyin back end of the IBus engine

    A shallow embedding of [src/PYLibPinyin.cc].  The back end is glue
    around three collaborators whose code lives elsewhere: GLib (timers,
    the main loop, the file system), the libpinyin engine and the
    configuration objects.  Every call to a collaborator is appended to a
    time-stamped trace; what a collaborator answers is taken from an
    environment record, so that every property below holds for whatever
    the collaborators answer. *)

From Stdlib Require Import ZArith List String Bool Lia.
Import ListNotations.
Open Scope string_scope.
Open Scope list_scope.
Open Scope Z_scope.

(** ** C-level types *)

Abbreviation gboolean := bool (only parsing).
Abbreviation TRUE := true (only parsing).
Abbreviation FALSE := false (only parsing).

(** A pointer is [None] when it is NULL and [Some a] when it points to
    the object at address [a]. *)
Definition pinyin_context_t := positive.
Definition pinyin_instance_t := positive.

(** Enumerators of [pinyin_custom2.h] named by the two tables. *)
Inductive DoublePinyinScheme : Set :=
| DOUBLE_PINYIN_MS
| DOUBLE_PINYIN_ZRM
| DOUBLE_PINYIN_ABC
| DOUBLE_PINYIN_ZIGUANG
| DOUBLE_PINYIN_PYJJ
| DOUBLE_PINYIN_XHE.

Inductive ChewingScheme : Set :=
| CHEWING_STANDARD
| CHEWING_GINYIEH
| CHEWING_ETEN
| CHEWING_IBM.

(** What the back end reads from a [Config] object. *)
Record Config : Set := {
  doublePinyinSchema : Z;
  bopomofoKeyboardMapping : Z;
  config_option : Z
}.

(** ** The world outside the back end *)

(** Calls made to the collaborators, with their arguments and, where the
    callee returns something, its answer.  [Ev_timeout_dispatched] is the
    one event in the other direction: the main loop ran the callback of
    the source [id] and got [ret] back. *)
Inductive Event : Set :=
| Ev_g_timer_new
| Ev_g_timer_start
| Ev_g_timer_destroy
| Ev_g_timeout_add_seconds (interval : Z) (id : positive)
| Ev_g_source_remove (tag : Z)
| Ev_g_mkdir_with_parents (pathname : string) (mode : Z) (ret : Z)
| Ev_pinyin_init (systemdir : string) (userdir : option string)
                 (ret : option pinyin_context_t)
| Ev_pinyin_fini (context : pinyin_context_t)
| Ev_pinyin_alloc_instance (context : option pinyin_context_t)
                           (ret : option pinyin_instance_t)
| Ev_pinyin_free_instance (instance : option pinyin_instance_t)
| Ev_pinyin_set_double_pinyin_scheme (context : pinyin_context_t)
                                     (scheme : DoublePinyinScheme)
| Ev_pinyin_set_chewing_scheme (context : pinyin_context_t)
                               (scheme : ChewingScheme)
| Ev_pinyin_set_options (context : pinyin_context_t) (options : Z)
| Ev_pinyin_save (context : pinyin_context_t) (ret : bool)
| Ev_timeout_dispatched (id : positive) (ret : gboolean).

(** A timeout source attached to the main loop. *)
Record Source : Set := {
  source_id : positive;
  source_interval : Z
}.

(** [clock] is the monotonic clock in microseconds; [sources] are the
    timeout sources attached to the main loop, [next_source_id] the
    identifier the loop hands out next (GLib's identifiers are greater
    than 0); [trace] has the latest event last, each with the time it
    happened at. *)
Record World : Set := {
  clock : Z;
  sources : list Source;
  next_source_id : positive;
  trace : list (Z * Event)
}.

(** Answers of the collaborators during one call into the back end. *)
Record Env : Set := {
  home_dir : string;                       (* g_get_home_dir () *)
  mkdir_retval : Z;                        (* g_mkdir_with_parents *)
  init_retval : option pinyin_context_t;   (* pinyin_init *)
  alloc_retval : option pinyin_instance_t; (* pinyin_alloc_instance *)
  save_retval : pinyin_context_t -> bool;  (* pinyin_save *)
  pinyin_config : Config;                  (* LibPinyinPinyinConfig::instance () *)
  bopomofo_config : Config                 (* LibPinyinBopomofoConfig::instance () *)
}.

Definition emit (e : Event) (w : World) : World :=
  {| clock := clock w;
     sources := sources w;
     next_source_id := next_source_id w;
     trace := trace w ++ [(clock w, e)] |}.

(** *** GLib *)

(** A [GTimer] remembers when it was last started. *)
Record GTimer : Set := { timer_start : Z }.

(** [g_timer_new] also starts the timer. *)
Definition g_timer_new (w : World) : GTimer * World :=
  ({| timer_start := clock w |}, emit Ev_g_timer_new w).

Definition g_timer_start (t : GTimer) (w : World) : GTimer * World :=
  ({| timer_start := clock w |}, emit Ev_g_timer_start w).

Definition g_timer_destroy (t : GTimer) (w : World) : World :=
  emit Ev_g_timer_destroy w.

(** The time since the timer was started, in microseconds.  GLib returns
    this number divided by 1e6 as a [gdouble]. *)
Definition g_timer_elapsed (t : GTimer) (w : World) : Z :=
  clock w - timer_start t.

(** The cast [(guint) seconds] of an elapsed time: the fraction is
    dropped and the result kept in 32 bits. *)
Definition guint_of_elapsed (microseconds : Z) : Z :=
  (microseconds ÷ 1000000) mod 2 ^ 32.

Definition g_timeout_add_seconds (interval : Z) (w : World) : Z * World :=
  let id := next_source_id w in
  (Z.pos id,
   emit (Ev_g_timeout_add_seconds interval id)
     {| clock := clock w;
        sources := sources w ++ [{| source_id := id; source_interval := interval |}];
        next_source_id := Pos.succ id;
        trace := trace w |}).

Definition detach (tag : Z) (w : World) : World :=
  {| clock := clock w;
     sources := filter (fun s => negb (Z.pos (source_id s) =? tag)) (sources w);
     next_source_id := next_source_id w;
     trace := trace w |}.

Definition g_source_remove (tag : Z) (w : World) : World :=
  emit (Ev_g_source_remove tag) (detach tag w).

(** Simplified: GLib also drops doubled separators where two elements
    meet. *)
Definition g_build_filename (elements : list string) : string :=
  String.concat "/" elements.

Definition g_mkdir_with_parents (env : Env) (pathname : string) (mode : Z)
    (w : World) : Z * World :=
  (mkdir_retval env,
   emit (Ev_g_mkdir_with_parents pathname mode (mkdir_retval env)) w).

(** *** libpinyin *)

Definition pinyin_init (env : Env) (systemdir : string)
    (userdir : option string) (w : World) : option pinyin_context_t * World :=
  (init_retval env, emit (Ev_pinyin_init systemdir userdir (init_retval env)) w).

Definition pinyin_fini (context : pinyin_context_t) (w : World) : World :=
  emit (Ev_pinyin_fini context) w.

Definition pinyin_alloc_instance (env : Env)
    (context : option pinyin_context_t) (w : World)
    : option pinyin_instance_t * World :=
  (alloc_retval env,
   emit (Ev_pinyin_alloc_instance context (alloc_retval env)) w).

Definition pinyin_free_instance (instance : option pinyin_instance_t)
    (w : World) : World :=
  emit (Ev_pinyin_free_instance instance) w.

Definition pinyin_set_double_pinyin_scheme (context : pinyin_context_t)
    (scheme : DoublePinyinScheme) (w : World) : World :=
  emit (Ev_pinyin_set_double_pinyin_scheme context scheme) w.

Definition pinyin_set_chewing_scheme (context : pinyin_context_t)
    (scheme : ChewingScheme) (w : World) : World :=
  emit (Ev_pinyin_set_chewing_scheme context scheme) w.

Definition pinyin_set_options (context : pinyin_context_t) (options : Z)
    (w : World) : World :=
  emit (Ev_pinyin_set_options context options) w.

Definition pinyin_save (env : Env) (context : pinyin_context_t) (w : World)
    : bool * World :=
  (save_retval env context,
   emit (Ev_pinyin_save context (save_retval env context)) w).

(** ** The back end *)

Definition LIBPINYIN_SAVE_TIMEOUT : Z := 5 * 60.

Record LibPinyinBackEnd : Set := {
  m_timeout_id : Z;
  m_timer : GTimer;
  m_pinyin_context : option pinyin_context_t;
  m_chewing_context : option pinyin_context_t
}.

Definition set_m_timeout_id (id : Z) (self : LibPinyinBackEnd) :=
  {| m_timeout_id := id;
     m_timer := m_timer self;
     m_pinyin_context := m_pinyin_context self;
     m_chewing_context := m_chewing_context self |}.

Definition set_m_timer (t : GTimer) (self : LibPinyinBackEnd) :=
  {| m_timeout_id := m_timeout_id self;
     m_timer := t;
     m_pinyin_context := m_pinyin_context self;
     m_chewing_context := m_chewing_context self |}.

Definition set_m_pinyin_context (c : option pinyin_context_t)
    (self : LibPinyinBackEnd) :=
  {| m_timeout_id := m_timeout_id self;
     m_timer := m_timer self;
     m_pinyin_context := c;
     m_chewing_context := m_chewing_context self |}.

Definition set_m_chewing_context (c : option pinyin_context_t)
    (self : LibPinyinBackEnd) :=
  {| m_timeout_id := m_timeout_id self;
     m_timer := m_timer self;
     m_pinyin_context := m_pinyin_context self;
     m_chewing_context := c |}.

(** The double pinyin keyboard scheme mapping table. *)
Definition double_pinyin_options : list (Z * DoublePinyinScheme) :=
  [ (0, DOUBLE_PINYIN_MS);
    (1, DOUBLE_PINYIN_ZRM);
    (2, DOUBLE_PINYIN_ABC);
    (3, DOUBLE_PINYIN_ZIGUANG);
    (4, DOUBLE_PINYIN_PYJJ);
    (5, DOUBLE_PINYIN_XHE) ].

(** The chewing keyboard scheme mapping table. *)
Definition chewing_options : list (Z * ChewingScheme) :=
  [ (0, CHEWING_STANDARD);
    (1, CHEWING_GINYIEH);
    (2, CHEWING_ETEN);
    (3, CHEWING_IBM) ].

(** ** The Lua test harness ([lua/test-lua-plugin.c])

    The harness only sequences calls to the Lua interpreter, the plugin
    and stdio.  As for the back end, every call is logged with its
    arguments and its answer, and the answers come from an environment. *)

Definition newline : string := String (Ascii.ascii_of_nat 10) EmptyString.

Definition lua_State := positive.

Inductive LuaEvent : Set :=
| Lev_printf (text : string)
| Lev_fprintf_stderr (text : string)
| Lev_fflush_stderr
| Lev_lua_open (ret : option lua_State)
| Lev_lua_plugin_init (L : option lua_State)
| Lev_lua_plugin_fini (L : option lua_State)
| Lev_luaL_dofile (L : option lua_State) (filename : string) (ret : Z)
| Lev_lua_isnil (L : option lua_State) (idx : Z) (ret : bool)
| Lev_lua_tostring (L : option lua_State) (idx : Z) (ret : option string)
| Lev_lua_pop (L : option lua_State) (n : Z)
| Lev_lua_close (L : option lua_State).

(** Answers of the interpreter during one run of the harness. *)
Record LuaEnv : Set := {
  lua_open_retval : option lua_State;   (* lua_open () *)
  dofile_status : Z;                    (* luaL_dofile (L, filename) *)
  top_is_nil : bool;                    (* lua_isnil (L, -1) *)
  top_tostring : option string          (* lua_tostring (L, -1) *)
}.

Definition progname : string := "test-lua-plugin".

(** [l_message]; [pname] may be NULL. *)
Definition l_message (pname : option string) (msg : string)
    (log : list LuaEvent) : list LuaEvent :=
  let log := match pname with
             | Some name => log ++ [Lev_fprintf_stderr (name ++ ": ")%string]
             | None => log
             end in
  let log := log ++ [Lev_fprintf_stderr (msg ++ newline)%string] in
  log ++ [Lev_fflush_stderr].

(** [report]; [lua_isnil] is asked only when [status] is not zero. *)
Definition report (env : LuaEnv) (L : option lua_State) (status : Z)
    (log : list LuaEvent) : Z * list LuaEvent :=
  if negb (status =? 0)
  then
    let log := log ++ [Lev_lua_isnil L (-1) (top_is_nil env)] in
    if negb (top_is_nil env)
    then
      let msg := top_tostring env in
      let log := log ++ [Lev_lua_tostring L (-1) msg] in
      let msg := match msg with
                 | None => "(error object is not a string)"
                 | Some text => text
                 end in
      let log := l_message (Some progname) msg log in
      let log := log ++ [Lev_lua_pop L 1] in
      (status, log)
    else (status, log)
  else (status, log).

(** [run_test] *)
Definition run_test (env : LuaEnv) (L : option lua_State) (filename : string)
    (log : list LuaEvent) : Z * list LuaEvent :=
  let status := dofile_status env in
  let log := log ++ [Lev_luaL_dofile L filename status] in
  let log := log ++ [Lev_fprintf_stderr (filename ++ " done." ++ newline)%string] in
  report env L status log.

(** [main]: the exit status and everything the program did. *)
Definition main (env : LuaEnv) : Z * list LuaEvent :=
  let log := [Lev_printf ("starting test..." ++ newline)%string] in
  let L := lua_open_retval env in
  let log := log ++ [Lev_lua_open L] in
  let log := log ++ [Lev_lua_plugin_init L] in
  let '(_, log) := run_test env L "test.lua" log in
  let log := log ++ [Lev_lua_plugin_fini L] in
  (0, log).

(** What the program wrote to stderr, in order. *)
Definition stderr_text (log : list LuaEvent) : string :=
  String.concat ""
    (flat_map (fun e => match e with
                        | Lev_fprintf_stderr text => [text]
                        | _ => []
                        end) log).

Definition sample_lua_failure : LuaEnv :=
  {| lua_open_retval := Some 1%positive;
     dofile_status := 1;
     top_is_nil := false;
     top_tostring := Some "test.lua:3: boom" |}.

Section BackEnd.

(** The flag [USE_RESPLIT_TABLE] of libpinyin's [PinyinOption2]; its
    value is fixed by a header of the engine. *)
Variable USE_RESPLIT_TABLE : Z.

(** [LibPinyinBackEnd::LibPinyinBackEnd] *)
Definition constructor (w : World) : LibPinyinBackEnd * World :=
  let '(timer, w) := g_timer_new w in
  ({| m_timeout_id := 0;
      m_timer := timer;
      m_pinyin_context := None;
      m_chewing_context := None |}, w).

(** [LibPinyinBackEnd::saveUserDB] *)
Definition saveUserDB (env : Env) (self : LibPinyinBackEnd) (w : World)
    : gboolean * World :=
  let w := match m_pinyin_context self with
           | Some context => snd (pinyin_save env context w)
           | None => w
           end in
  let w := match m_chewing_context self with
           | Some context => snd (pinyin_save env context w)
           | None => w
           end in
  (TRUE, w).

(** [LibPinyinBackEnd::~LibPinyinBackEnd]; the object returned is the
    dying object as the body leaves it. *)
Definition destructor (env : Env) (self : LibPinyinBackEnd) (w : World)
    : LibPinyinBackEnd * World :=
  let w := g_timer_destroy (m_timer self) w in
  let w := if negb (m_timeout_id self =? 0)
           then let '(_, w) := saveUserDB env self w in
                g_source_remove (m_timeout_id self) w
           else w in
  let w := match m_pinyin_context self with
           | Some context => pinyin_fini context w
           | None => w
           end in
  let self := set_m_pinyin_context None self in
  let w := match m_chewing_context self with
           | Some context => pinyin_fini context w
           | None => w
           end in
  let self := set_m_chewing_context None self in
  (self, w).

(** The loop of [setPinyinOptions] over [double_pinyin_options]. *)
Definition set_double_pinyin_scheme_loop (map : Z)
    (context : pinyin_context_t) (w : World) : World :=
  fold_left
    (fun w entry =>
       if map =? fst entry
       then pinyin_set_double_pinyin_scheme context (snd entry) w
       else w)
    double_pinyin_options w.

(** [LibPinyinBackEnd::setPinyinOptions] *)
Definition setPinyinOptions (config : Config) (self : LibPinyinBackEnd)
    (w : World) : gboolean * World :=
  match m_pinyin_context self with
  | None => (FALSE, w)
  | Some context =>
      let map := doublePinyinSchema config in
      let w := set_double_pinyin_scheme_loop map context w in
      let options := Z.lor (config_option config) USE_RESPLIT_TABLE in
      let w := pinyin_set_options context options w in
      (TRUE, w)
  end.

(** The loop of [setChewingOptions] over [chewing_options]. *)
Definition set_chewing_scheme_loop (map : Z) (context : pinyin_context_t)
    (w : World) : World :=
  fold_left
    (fun w entry =>
       if map =? fst entry
       then pinyin_set_chewing_scheme context (snd entry) w
       else w)
    chewing_options w.

(** [LibPinyinBackEnd::setChewingOptions] *)
Definition setChewingOptions (config : Config) (self : LibPinyinBackEnd)
    (w : World) : gboolean * World :=
  match m_chewing_context self with
  | None => (FALSE, w)
  | Some context =>
      let map := bopomofoKeyboardMapping config in
      let w := set_chewing_scheme_loop map context w in
      let w := pinyin_set_options context (config_option config) w in
      (TRUE, w)
  end.

(** [LibPinyinBackEnd::allocPinyinInstance]; 0700 is 448. *)
Definition allocPinyinInstance (env : Env) (self : LibPinyinBackEnd)
    (w : World) : option pinyin_instance_t * LibPinyinBackEnd * World :=
  let '(self, w) :=
    match m_pinyin_context self with
    | None =>
        let userdir :=
          g_build_filename [home_dir env; ".cache"; "ibus"; "libpinyin"] in
        let '(retval, w) := g_mkdir_with_parents env userdir 448 w in
        let userdir := if negb (retval =? 0) then None else Some userdir in
        let '(context, w) :=
          pinyin_init env "/usr/share/libpinyin/data" userdir w in
        (set_m_pinyin_context context self, w)
    | Some _ => (self, w)
    end in
  let '(_, w) := setPinyinOptions (pinyin_config env) self w in
  let '(instance, w) := pinyin_alloc_instance env (m_pinyin_context self) w in
  (instance, self, w).

(** [LibPinyinBackEnd::freePinyinInstance] *)
Definition freePinyinInstance (instance : option pinyin_instance_t)
    (self : LibPinyinBackEnd) (w : World) : World :=
  pinyin_free_instance instance w.

(** [LibPinyinBackEnd::allocChewingInstance] *)
Definition allocChewingInstance (env : Env) (self : LibPinyinBackEnd)
    (w : World) : option pinyin_instance_t * LibPinyinBackEnd * World :=
  let '(self, w) :=
    match m_chewing_context self with
    | None =>
        let userdir :=
          g_build_filename [home_dir env; ".cache"; "ibus"; "libbopomofo"] in
        let '(retval, w) := g_mkdir_with_parents env userdir 448 w in
        let userdir := if negb (retval =? 0) then None else Some userdir in
        let '(context, w) :=
          pinyin_init env "/usr/share/libpinyin/data" None w in
        (set_m_chewing_context context self, w)
    | Some _ => (self, w)
    end in
  let '(_, w) := setChewingOptions (bopomofo_config env) self w in
  let '(instance, w) := pinyin_alloc_instance env (m_chewing_context self) w in
  (instance, self, w).

(** [LibPinyinBackEnd::freeChewingInstance] *)
Definition freeChewingInstance (instance : option pinyin_instance_t)
    (self : LibPinyinBackEnd) (w : World) : World :=
  pinyin_free_instance instance w.

(** [LibPinyinBackEnd::modified] *)
Definition modified (self : LibPinyinBackEnd) (w : World)
    : LibPinyinBackEnd * World :=
  let '(timer, w) := g_timer_start (m_timer self) w in
  let self := set_m_timer timer self in
  if negb (m_timeout_id self =? 0)
  then (self, w)
  else
    let '(id, w) := g_timeout_add_seconds LIBPINYIN_SAVE_TIMEOUT w in
    (set_m_timeout_id id self, w).

(** [LibPinyinBackEnd::timeoutCallback]; [TRUE] tells the main loop to
    call again, [FALSE] to drop the source. *)
Definition timeoutCallback (env : Env) (self : LibPinyinBackEnd) (w : World)
    : gboolean * LibPinyinBackEnd * World :=
  let elapsed := guint_of_elapsed (g_timer_elapsed (m_timer self) w) in
  if LIBPINYIN_SAVE_TIMEOUT <=? elapsed
  then
    let '(saved, w') := saveUserDB env self w in
    if saved
    then (FALSE, set_m_timeout_id 0 self, w')
    else (TRUE, self, w')
  else (TRUE, self, w).

(** *** The main loop and the calls a client can make *)

Definition attached (id : positive) (w : World) : bool :=
  existsb (fun s => Pos.eqb (source_id s) id) (sources w).

(** The main loop runs the callback of the timeout source [id], if it is
    attached, and drops the source when the callback answers [FALSE]. *)
Definition dispatch (env : Env) (id : positive) (self : LibPinyinBackEnd)
    (w : World) : LibPinyinBackEnd * World :=
  if attached id w
  then
    let '(again, self, w) := timeoutCallback env self w in
    let w := emit (Ev_timeout_dispatched id again) w in
    if again then (self, w) else (self, detach (Z.pos id) w)
  else (self, w).

(** Time passes. *)
Definition wait (microseconds : N) (w : World) : World :=
  {| clock := clock w + Z.of_N microseconds;
     sources := sources w;
     next_source_id := next_source_id w;
     trace := trace w |}.

(** What can happen to a live back end. *)
Inductive Op : Set :=
| Op_allocPinyinInstance
| Op_freePinyinInstance (instance : option pinyin_instance_t)
| Op_allocChewingInstance
| Op_freeChewingInstance (instance : option pinyin_instance_t)
| Op_setPinyinOptions (config : Config)
| Op_setChewingOptions (config : Config)
| Op_modified
| Op_saveUserDB
| Op_timeout (id : positive)
| Op_wait (microseconds : N).

Definition step (env : Env) (op : Op) (s : LibPinyinBackEnd * World)
    : LibPinyinBackEnd * World :=
  let '(self, w) := s in
  match op with
  | Op_allocPinyinInstance =>
      let '(_, self, w) := allocPinyinInstance env self w in (self, w)
  | Op_freePinyinInstance instance =>
      (self, freePinyinInstance instance self w)
  | Op_allocChewingInstance =>
      let '(_, self, w) := allocChewingInstance env self w in (self, w)
  | Op_freeChewingInstance instance =>
      (self, freeChewingInstance instance self w)
  | Op_setPinyinOptions config =>
      (self, snd (setPinyinOptions config self w))
  | Op_setChewingOptions config =>
      (self, snd (setChewingOptions config self w))
  | Op_modified => modified self w
  | Op_saveUserDB => (self, snd (saveUserDB env self w))
  | Op_timeout id => dispatch env id self w
  | Op_wait microseconds => (self, wait microseconds w)
  end.

Definition run (ops : list (Env * Op)) (s : LibPinyinBackEnd * World)
    : LibPinyinBackEnd * World :=
  fold_left (fun s eo => step (fst eo) (snd eo) s) ops s.

(** The world when the program starts: no timeout source of the back end
    is attached and nothing has happened. *)
Definition boot (now : Z) (next : positive) : World :=
  {| clock := now; sources := []; next_source_id := next; trace := [] |}.

(** *** The process: the two objects at file scope *)

Record Process : Set := {
  libpinyin_backend : LibPinyinBackEnd;   (* static LibPinyinBackEnd *)
  m_instance : option LibPinyinBackEnd;   (* std::unique_ptr<LibPinyinBackEnd> *)
  world : World
}.

(** Static initialisation: [m_instance] starts empty and
    [libpinyin_backend] is constructed. *)
Definition startup (w : World) : Process :=
  let '(backend, w) := constructor w in
  {| libpinyin_backend := backend; m_instance := None; world := w |}.

(** [LibPinyinBackEnd::init]; [None] when [g_assert] aborts. *)
Definition init (p : Process) : option Process :=
  match m_instance p with
  | Some _ => None
  | None =>
      let '(backend, w) := constructor (world p) in
      Some {| libpinyin_backend := libpinyin_backend p;
              m_instance := Some backend;
              world := w |}
  end.

(** [LibPinyinBackEnd::finalize]: [reset ()] deletes the object held,
    if there is one. *)
Definition finalize (env : Env) (p : Process) : Process :=
  match m_instance p with
  | None => p
  | Some backend =>
      {| libpinyin_backend := libpinyin_backend p;
         m_instance := None;
         world := snd (destructor env backend (world p)) |}
  end.

Inductive ProcessOp : Set :=
| POp_init
| POp_finalize
| POp_instance (op : Op).

(** A call on the registered instance needs one to be registered. *)
Definition process_step (env : Env) (op : ProcessOp) (p : Process)
    : option Process :=
  match op with
  | POp_init => init p
  | POp_finalize => Some (finalize env p)
  | POp_instance op =>
      match m_instance p with
      | None => None
      | Some backend =>
          let '(backend, w) := step env op (backend, world p) in
          Some {| libpinyin_backend := libpinyin_backend p;
                  m_instance := Some backend;
                  world := w |}
      end
  end.

Fixpoint process_run (ops : list (Env * ProcessOp)) (p : Process)
    : option Process :=
  match ops with
  | [] => Some p
  | (env, op) :: ops =>
      match process_step env op p with
      | None => None
      | Some p => process_run ops p
      end
  end.

(** ** Reading the trace *)

Definition stamp (now : Z) (events : list Event) : list (Z * Event) :=
  map (pair now) events.

(** The calls [events] are made one after the other, at one instant. *)
Fixpoint emits (events : list Event) (w : World) : World :=
  match events with
  | [] => w
  | e :: events => emits events (emit e w)
  end.

Definition context_list (context : option pinyin_context_t)
    : list pinyin_context_t :=
  match context with
  | Some c => [c]
  | None => []
  end.

(** The contexts that exist, Pinyin first. *)
Definition contexts (self : LibPinyinBackEnd) : list pinyin_context_t :=
  context_list (m_pinyin_context self) ++ context_list (m_chewing_context self).

Definition save_events (env : Env) (self : LibPinyinBackEnd) : list Event :=
  map (fun c => Ev_pinyin_save c (save_retval env c)) (contexts self).

Definition fini_events (self : LibPinyinBackEnd) : list Event :=
  map Ev_pinyin_fini (contexts self).

Definition is_init (e : Event) : bool :=
  match e with
  | Ev_pinyin_init _ _ _ => true
  | _ => false
  end.

(** The scheme the table gives for a selector, entry by entry. *)
Definition scheme_of_selector (map : Z) : option DoublePinyinScheme :=
  if map =? 0 then Some DOUBLE_PINYIN_MS
  else if map =? 1 then Some DOUBLE_PINYIN_ZRM
  else if map =? 2 then Some DOUBLE_PINYIN_ABC
  else if map =? 3 then Some DOUBLE_PINYIN_ZIGUANG
  else if map =? 4 then Some DOUBLE_PINYIN_PYJJ
  else if map =? 5 then Some DOUBLE_PINYIN_XHE
  else None.

Definition chewing_scheme_of_selector (map : Z) : option ChewingScheme :=
  if map =? 0 then Some CHEWING_STANDARD
  else if map =? 1 then Some CHEWING_GINYIEH
  else if map =? 2 then Some CHEWING_ETEN
  else if map =? 3 then Some CHEWING_IBM
  else None.

Definition scheme_events (map : Z) (context : pinyin_context_t) : list Event :=
  match scheme_of_selector map with
  | Some scheme => [Ev_pinyin_set_double_pinyin_scheme context scheme]
  | None => []
  end.

Definition chewing_scheme_events (map : Z) (context : pinyin_context_t)
    : list Event :=
  match chewing_scheme_of_selector map with
  | Some scheme => [Ev_pinyin_set_chewing_scheme context scheme]
  | None => []
  end.

(** The double pinyin scheme the engine was last told to use for
    [context], if it was ever told one. *)
Fixpoint current_scheme (context : pinyin_context_t) (events : list Event)
    : option DoublePinyinScheme :=
  match events with
  | [] => None
  | e :: events =>
      match current_scheme context events with
      | Some scheme => Some scheme
      | None =>
          match e with
          | Ev_pinyin_set_double_pinyin_scheme c scheme =>
              if Pos.eqb c context then Some scheme else None
          | _ => None
          end
      end
  end.

(** What [setPinyinOptions] tells the engine about a context that
    exists: the scheme, if the selector is in the table, then the flags. *)
Definition options_events (config : Config) (context : pinyin_context_t)
    : list Event :=
  scheme_events (doublePinyinSchema config) context
  ++ [Ev_pinyin_set_options context
        (Z.lor (config_option config) USE_RESPLIT_TABLE)].

Definition chewing_options_events (config : Config)
    (context : pinyin_context_t) : list Event :=
  chewing_scheme_events (bopomofoKeyboardMapping config) context
  ++ [Ev_pinyin_set_options context (config_option config)].

(** A save is scheduled and not yet done: the timeout source that
    [m_timeout_id] names is attached to the main loop. *)
Definition pending (self : LibPinyinBackEnd) (w : World) : bool :=
  existsb (fun s => Z.pos (source_id s) =? m_timeout_id self) (sources w).

(** The back end and the main loop agree: either nothing is scheduled,
    or the one source attached is the one [m_timeout_id] names, with the
    save interval. *)
Definition scheduled (self : LibPinyinBackEnd) (w : World) : Prop :=
  (m_timeout_id self = 0 /\ sources w = [])
  \/ (exists id, m_timeout_id self = Z.pos id /\
       sources w = [{| source_id := id;
                       source_interval := LIBPINYIN_SAVE_TIMEOUT |}]).

(** A save outcome: the callback ended a scheduled save and answered
    [FALSE]. *)
Definition is_stop (e : Event) : bool :=
  match e with
  | Ev_timeout_dispatched _ false => true
  | _ => false
  end.

Definition stops (events : list (Z * Event)) : nat :=
  List.length (filter (fun te => is_stop (snd te)) events).



(** Every constructor calls [g_timer_new] once and every destructor
    [g_timer_destroy] once, so this is the number of back ends
    constructed and not yet destroyed. *)
Definition backend_delta (e : Event) : Z :=
  match e with
  | Ev_g_timer_new => 1
  | Ev_g_timer_destroy => -1
  | _ => 0
  end.

Definition live_backends (events : list (Z * Event)) : Z :=
  fold_right (fun te acc => backend_delta (snd te) + acc) 0 events.

(** The [LibPinyinBackEnd] objects the file's two variables hold. *)
Definition instances (p : Process) : list LibPinyinBackEnd :=
  libpinyin_backend p ::
  match m_instance p with
  | Some backend => [backend]
  | None => []
  end.

Definition is_pinyin_alloc_with_context (eo : Env * Op) : Prop :=
  snd eo = Op_allocPinyinInstance /\ init_retval (fst eo) <> None.

Definition is_chewing_alloc_with_context (eo : Env * Op) : Prop :=
  snd eo = Op_allocChewingInstance /\ init_retval (fst eo) <> None.

(** The test of [timeoutCallback]: the whole seconds since the timer
    was last started have reached the save interval. *)
Definition due (self : LibPinyinBackEnd) (w : World) : bool :=
  LIBPINYIN_SAVE_TIMEOUT <=? guint_of_elapsed (g_timer_elapsed (m_timer self) w).

(** The times at which a scheduled save was done. *)
Definition stop_times (events : list (Z * Event)) : list Z :=
  map fst (filter (fun te => is_stop (snd te)) events).

(** [op] is a dispatch of an attached source that finds the save due. *)
Definition step_stops (op : Op) (self : LibPinyinBackEnd) (w : World) : bool :=
  match op with
  | Op_timeout id => attached id w && due self w
  | _ => false
  end.

Definition quiet_interval : Z := LIBPINYIN_SAVE_TIMEOUT * 1000000.

(** Events of GLib's timers and main loop, as opposed to calls to the
    engine and the file system. *)
Definition is_glib_timing (e : Event) : bool :=
  match e with
  | Ev_g_timer_new | Ev_g_timer_start | Ev_g_timer_destroy
  | Ev_g_timeout_add_seconds _ _ | Ev_g_source_remove _
  | Ev_timeout_dispatched _ _ => true
  | _ => false
  end.

(** The operations that only talk to the engine and the file system. *)
Definition engine_only (op : Op) : bool :=
  match op with
  | Op_modified | Op_timeout _ | Op_wait _ => false
  | _ => true
  end.

(** Calls that set a scheme or the flags of a context. *)
Definition is_option_call (e : Event) : bool :=
  match e with
  | Ev_pinyin_set_double_pinyin_scheme _ _ | Ev_pinyin_set_chewing_scheme _ _
  | Ev_pinyin_set_options _ _ => true
  | _ => false
  end.

(** The back ends alive are exactly those the two variables hold. *)
Definition balanced (p : Process) : Prop :=
  live_backends (trace (world p)) = Z.of_nat (List.length (instances p)).

Definition pending_count (self : LibPinyinBackEnd) (w : World) : nat :=
  if pending self w then 1%nat else 0%nat.

(** ** Sample collaborators and call sequences *)

Definition sample_config : Config :=
  {| doublePinyinSchema := 1; bopomofoKeyboardMapping := 2; config_option := 5 |}.

(** The directory can be created and the engine gives a context. *)
Definition sample_env : Env :=
  {| home_dir := "/home/user";
     mkdir_retval := 0;
     init_retval := Some 7%positive;
     alloc_retval := Some 9%positive;
     save_retval := fun _ => false;
     pinyin_config := sample_config;
     bopomofo_config := sample_config |}.

(** The engine's init gives NULL. *)
Definition failing_env : Env :=
  {| home_dir := "/home/user";
     mkdir_retval := 0;
     init_retval := None;
     alloc_retval := Some 9%positive;
     save_retval := fun _ => false;
     pinyin_config := sample_config;
     bopomofo_config := sample_config |}.

(** A selector outside the table. *)
Definition other_env : Env :=
  {| home_dir := "/home/user";
     mkdir_retval := 0;
     init_retval := Some 7%positive;
     alloc_retval := Some 9%positive;
     save_retval := fun _ => true;
     pinyin_config :=
       {| doublePinyinSchema := 6; bopomofoKeyboardMapping := 0;
          config_option := 64 |};
     bopomofo_config := sample_config |}.

(** After a first [modified], two more, 100 and 200 seconds later. *)
Definition sample_burst : list (Env * Op) :=
  [ (sample_env, Op_wait 100000000); (sample_env, Op_modified);
    (sample_env, Op_wait 100000000); (sample_env, Op_modified) ].

(** The main loop runs the callback 300 and 600 seconds after the first
    [modified]. *)
Definition sample_quiet : list (Env * Op) :=
  [ (sample_env, Op_wait 100000000); (sample_env, Op_timeout 1);
    (sample_env, Op_wait 300000000); (sample_env, Op_timeout 1) ].

Definition sample_process_ops : list (Env * ProcessOp) :=
  [ (sample_env, POp_init);
    (sample_env, POp_instance Op_allocPinyinInstance);
    (sample_env, POp_instance Op_modified);
    (sample_env, POp_finalize);
    (sample_env, POp_init) ].

(** ** Counting calls in the trace *)

Definition count_events (f : Event -> bool) (events : list (Z * Event)) : nat :=
  List.length (filter (fun te => f (snd te)) events).

(** A save timer was added to the main loop. *)
Definition is_schedule (e : Event) : bool :=
  match e with
  | Ev_g_timeout_add_seconds _ _ => true
  | _ => false
  end.

(** The engine's init was called and gave a context. *)
Definition is_created (e : Event) : bool :=
  match e with
  | Ev_pinyin_init _ _ (Some _) => true
  | _ => false
  end.

Definition is_fini (e : Event) : bool :=
  match e with
  | Ev_pinyin_fini _ => true
  | _ => false
  end.

(** The contexts the registered instance holds, if one is registered. *)
Definition registered_contexts (p : Process) : list pinyin_context_t :=
  match m_instance p with
  | Some backend => contexts backend
  | None => []
  end.

(** The main loop and the registered instance agree on the save timer;
    with no instance registered no save timer is attached. *)
Definition process_scheduled (p : Process) : Prop :=
  match m_instance p with
  | Some backend => scheduled backend (world p)
  | None => sources (world p) = []
  end.

(** The calls one operation makes, in order. *)
Definition step_events (env : Env) (op : Op) (self : LibPinyinBackEnd)
    (w : World) : list Event :=
  match op with
  | Op_allocPinyinInstance =>
      match m_pinyin_context self with
      | Some c =>
          options_events (pinyin_config env) c
          ++ [Ev_pinyin_alloc_instance (Some c) (alloc_retval env)]
      | None =>
          [Ev_g_mkdir_with_parents
             (g_build_filename [home_dir env; ".cache"; "ibus"; "libpinyin"])
             448 (mkdir_retval env);
           Ev_pinyin_init "/usr/share/libpinyin/data"
             (if negb (mkdir_retval env =? 0) then None
              else Some (g_build_filename
                           [home_dir env; ".cache"; "ibus"; "libpinyin"]))
             (init_retval env)]
          ++ match init_retval env with
             | Some c => options_events (pinyin_config env) c
             | None => []
             end
          ++ [Ev_pinyin_alloc_instance (init_retval env) (alloc_retval env)]
      end
  | Op_allocChewingInstance =>
      match m_chewing_context self with
      | Some c =>
          chewing_options_events (bopomofo_config env) c
          ++ [Ev_pinyin_alloc_instance (Some c) (alloc_retval env)]
      | None =>
          [Ev_g_mkdir_with_parents
             (g_build_filename [home_dir env; ".cache"; "ibus"; "libbopomofo"])
             448 (mkdir_retval env);
           Ev_pinyin_init "/usr/share/libpinyin/data" None (init_retval env)]
          ++ match init_retval env with
             | Some c => chewing_options_events (bopomofo_config env) c
             | None => []
             end
          ++ [Ev_pinyin_alloc_instance (init_retval env) (alloc_retval env)]
      end
  | Op_freePinyinInstance instance => [Ev_pinyin_free_instance instance]
  | Op_freeChewingInstance instance => [Ev_pinyin_free_instance instance]
  | Op_setPinyinOptions config =>
      match m_pinyin_context self with
      | Some c => options_events config c
      | None => []
      end
  | Op_setChewingOptions config =>
      match m_chewing_context self with
      | Some c => chewing_options_events config c
      | None => []
      end
  | Op_modified =>
      Ev_g_timer_start ::
      (if m_timeout_id self =? 0
       then [Ev_g_timeout_add_seconds LIBPINYIN_SAVE_TIMEOUT (next_source_id w)]
       else [])
  | Op_saveUserDB => save_events env self
  | Op_timeout id =>
      if attached id w
      then if due self w
           then save_events env self ++ [Ev_timeout_dispatched id FALSE]
           else [Ev_timeout_dispatched id TRUE]
      else []
  | Op_wait _ => []
  end.

(** The context an engine call is made on, if it is made on one. *)
Definition event_context (e : Event) : option pinyin_context_t :=
  match e with
  | Ev_pinyin_fini c | Ev_pinyin_set_double_pinyin_scheme c _
  | Ev_pinyin_set_chewing_scheme c _ | Ev_pinyin_set_options c _
  | Ev_pinyin_save c _ => Some c
  | Ev_pinyin_alloc_instance c _ => c
  | _ => None
  end.



(** ** Basic facts about the trace *)

Lemma emits_app (d1 d2 : list Event) (w : World) :
  emits (d1 ++ d2) w = emits d2 (emits d1 w).
Proof.
  revert w. induction d1 as [|e d1 IH]; intros w; simpl; auto.
Qed.

Lemma clock_emits (d : list Event) (w : World) : clock (emits d w) = clock w.
Proof.
  revert w. induction d as [|e d IH]; intros w; simpl; auto.
  now rewrite IH.
Qed.

Lemma sources_emits (d : list Event) (w : World) :
  sources (emits d w) = sources w.
Proof.
  revert w. induction d as [|e d IH]; intros w; simpl; auto.
  now rewrite IH.
Qed.

Lemma next_source_id_emits (d : list Event) (w : World) :
  next_source_id (emits d w) = next_source_id w.
Proof.
  revert w. induction d as [|e d IH]; intros w; simpl; auto.
  now rewrite IH.
Qed.

Lemma trace_emits (d : list Event) (w : World) :
  trace (emits d w) = trace w ++ stamp (clock w) d.
Proof.
  revert w. induction d as [|e d IH]; intros w; simpl.
  - now rewrite app_nil_r.
  - rewrite IH. simpl. now rewrite <- app_assoc.
Qed.

Lemma set_double_pinyin_scheme_loop_eq (map : Z) (c : pinyin_context_t)
    (w : World) :
  set_double_pinyin_scheme_loop map c w =
  match scheme_of_selector map with
  | Some scheme => pinyin_set_double_pinyin_scheme c scheme w
  | None => w
  end.
Proof.
  unfold set_double_pinyin_scheme_loop, scheme_of_selector.
  cbn [fold_left double_pinyin_options fst snd].
  destruct (Z.eqb_spec map 0) as [->|_]; [reflexivity|].
  destruct (Z.eqb_spec map 1) as [->|_]; [reflexivity|].
  destruct (Z.eqb_spec map 2) as [->|_]; [reflexivity|].
  destruct (Z.eqb_spec map 3) as [->|_]; [reflexivity|].
  destruct (Z.eqb_spec map 4) as [->|_]; [reflexivity|].
  destruct (Z.eqb_spec map 5) as [->|_]; reflexivity.
Qed.

Lemma set_chewing_scheme_loop_eq (map : Z) (c : pinyin_context_t)
    (w : World) :
  set_chewing_scheme_loop map c w =
  match chewing_scheme_of_selector map with
  | Some scheme => pinyin_set_chewing_scheme c scheme w
  | None => w
  end.
Proof.
  unfold set_chewing_scheme_loop, chewing_scheme_of_selector.
  cbn [fold_left chewing_options fst snd].
  destruct (Z.eqb_spec map 0) as [->|_]; [reflexivity|].
  destruct (Z.eqb_spec map 1) as [->|_]; [reflexivity|].
  destruct (Z.eqb_spec map 2) as [->|_]; [reflexivity|].
  destruct (Z.eqb_spec map 3) as [->|_]; reflexivity.
Qed.

(** ** What each method does to the world *)

Lemma saveUserDB_eq (env : Env) (self : LibPinyinBackEnd) (w : World) :
  saveUserDB env self w = (TRUE, emits (save_events env self) w).
Proof.
  unfold saveUserDB, save_events, contexts.
  destruct (m_pinyin_context self), (m_chewing_context self); reflexivity.
Qed.

Lemma setPinyinOptions_eq (config : Config) (self : LibPinyinBackEnd)
    (w : World) :
  setPinyinOptions config self w =
  match m_pinyin_context self with
  | None => (FALSE, w)
  | Some c => (TRUE, emits (options_events config c) w)
  end.
Proof.
  unfold setPinyinOptions, options_events, scheme_events.
  destruct (m_pinyin_context self) as [c|]; [|reflexivity].
  rewrite set_double_pinyin_scheme_loop_eq.
  destruct (scheme_of_selector (doublePinyinSchema config)); reflexivity.
Qed.

Lemma setChewingOptions_eq (config : Config) (self : LibPinyinBackEnd)
    (w : World) :
  setChewingOptions config self w =
  match m_chewing_context self with
  | None => (FALSE, w)
  | Some c => (TRUE, emits (chewing_options_events config c) w)
  end.
Proof.
  unfold setChewingOptions, chewing_options_events, chewing_scheme_events.
  destruct (m_chewing_context self) as [c|]; [|reflexivity].
  rewrite set_chewing_scheme_loop_eq.
  destruct (chewing_scheme_of_selector (bopomofoKeyboardMapping config));
    reflexivity.
Qed.

Lemma allocPinyinInstance_existing (env : Env) (self : LibPinyinBackEnd)
    (w : World) (c : pinyin_context_t) :
  m_pinyin_context self = Some c ->
  allocPinyinInstance env self w =
  (alloc_retval env, self,
   emits (options_events (pinyin_config env) c
          ++ [Ev_pinyin_alloc_instance (Some c) (alloc_retval env)]) w).
Proof.
  intros H. unfold allocPinyinInstance. rewrite H.
  rewrite setPinyinOptions_eq, H. rewrite emits_app. reflexivity.
Qed.

Lemma allocPinyinInstance_first (env : Env) (self : LibPinyinBackEnd)
    (w : World) :
  m_pinyin_context self = None ->
  allocPinyinInstance env self w =
  (alloc_retval env, set_m_pinyin_context (init_retval env) self,
   emits ([Ev_g_mkdir_with_parents
             (g_build_filename [home_dir env; ".cache"; "ibus"; "libpinyin"])
             448 (mkdir_retval env);
           Ev_pinyin_init "/usr/share/libpinyin/data"
             (if negb (mkdir_retval env =? 0) then None
              else Some (g_build_filename
                           [home_dir env; ".cache"; "ibus"; "libpinyin"]))
             (init_retval env)]
          ++ match init_retval env with
             | Some c => options_events (pinyin_config env) c
             | None => []
             end
          ++ [Ev_pinyin_alloc_instance (init_retval env) (alloc_retval env)])
     w).
Proof.
  intros H. unfold allocPinyinInstance. rewrite H.
  cbn [g_mkdir_with_parents pinyin_init].
  rewrite setPinyinOptions_eq. cbn [set_m_pinyin_context m_pinyin_context].
  destruct (init_retval env) as [c|];
    cbn [pinyin_alloc_instance emits app]; rewrite ?emits_app; reflexivity.
Qed.

Lemma allocChewingInstance_existing (env : Env) (self : LibPinyinBackEnd)
    (w : World) (c : pinyin_context_t) :
  m_chewing_context self = Some c ->
  allocChewingInstance env self w =
  (alloc_retval env, self,
   emits (chewing_options_events (bopomofo_config env) c
          ++ [Ev_pinyin_alloc_instance (Some c) (alloc_retval env)]) w).
Proof.
  intros H. unfold allocChewingInstance. rewrite H.
  rewrite setChewingOptions_eq, H. rewrite emits_app. reflexivity.
Qed.

Lemma allocChewingInstance_first (env : Env) (self : LibPinyinBackEnd)
    (w : World) :
  m_chewing_context self = None ->
  allocChewingInstance env self w =
  (alloc_retval env, set_m_chewing_context (init_retval env) self,
   emits ([Ev_g_mkdir_with_parents
             (g_build_filename [home_dir env; ".cache"; "ibus"; "libbopomofo"])
             448 (mkdir_retval env);
           Ev_pinyin_init "/usr/share/libpinyin/data" None (init_retval env)]
          ++ match init_retval env with
             | Some c => chewing_options_events (bopomofo_config env) c
             | None => []
             end
          ++ [Ev_pinyin_alloc_instance (init_retval env) (alloc_retval env)])
     w).
Proof.
  intros H. unfold allocChewingInstance. rewrite H.
  cbn [g_mkdir_with_parents pinyin_init].
  rewrite setChewingOptions_eq. cbn [set_m_chewing_context m_chewing_context].
  destruct (init_retval env) as [c|];
    cbn [pinyin_alloc_instance emits app]; rewrite ?emits_app; reflexivity.
Qed.

Lemma destructor_eq (env : Env) (self : LibPinyinBackEnd) (w : World) :
  destructor env self w =
  (set_m_chewing_context None (set_m_pinyin_context None self),
   emits (fini_events self)
     (if negb (m_timeout_id self =? 0)
      then g_source_remove (m_timeout_id self)
             (emits (save_events env self) (emit Ev_g_timer_destroy w))
      else emit Ev_g_timer_destroy w)).
Proof.
  unfold destructor, g_timer_destroy. rewrite saveUserDB_eq.
  unfold fini_events, contexts.
  cbn [set_m_pinyin_context m_chewing_context].
  destruct (m_pinyin_context self), (m_chewing_context self); reflexivity.
Qed.

Lemma destructor_detaches (env : Env) (self : LibPinyinBackEnd) (w : World) :
  m_timeout_id self <> 0 ->
  pending self (snd (destructor env self w)) = false.
Proof.
  intros H. rewrite destructor_eq. cbn [snd].
  apply Z.eqb_neq in H. rewrite H. cbn [negb].
  unfold pending, g_source_remove. rewrite sources_emits.
  cbn [sources emit detach]. rewrite sources_emits. cbn [sources emit].
  induction (sources w) as [|s l IH]; [reflexivity|].
  cbn [filter]. destruct (Z.pos (source_id s) =? m_timeout_id self) eqn:E;
    cbn [negb]; [exact IH|].
  cbn [existsb]. rewrite E. exact IH.
Qed.

(** ** Saving *)

(** C8: [saveUserDB] calls the engine's save once for each family whose
    context exists, Pinyin before Bopomofo, and for no other context; it
    touches nothing else, and it answers [TRUE] whatever contexts exist
    and whatever the engine's save answers. *)
Theorem saveUserDB_saves_existing_contexts
    (env : Env) (self : LibPinyinBackEnd) (w : World) :
  fst (saveUserDB env self w) = TRUE /\
  snd (saveUserDB env self w) =
    emits (map (fun c => Ev_pinyin_save c (save_retval env c))
             (context_list (m_pinyin_context self)
              ++ context_list (m_chewing_context self))) w /\
  trace (snd (saveUserDB env self w)) =
    trace w
    ++ stamp (clock w)
         (map (fun c => Ev_pinyin_save c (save_retval env c))
            (context_list (m_pinyin_context self)
             ++ context_list (m_chewing_context self))).
Proof.
  rewrite saveUserDB_eq. cbn [fst snd]. rewrite trace_emits.
  unfold save_events, contexts. auto.
Qed.

(** ** Setting options *)

(** C9: with a null context [setPinyinOptions] (and likewise
    [setChewingOptions]) answers [FALSE] and leaves the world as it was,
    so no engine call is made; with a context it answers [TRUE]. *)
Theorem option_setters_null_guard
    (config : Config) (self : LibPinyinBackEnd) (w : World) :
  (m_pinyin_context self = None ->
   setPinyinOptions config self w = (FALSE, w)) /\
  (m_pinyin_context self <> None ->
   fst (setPinyinOptions config self w) = TRUE) /\
  (m_chewing_context self = None ->
   setChewingOptions config self w = (FALSE, w)) /\
  (m_chewing_context self <> None ->
   fst (setChewingOptions config self w) = TRUE).
Proof.
  rewrite setPinyinOptions_eq, setChewingOptions_eq.
  repeat split; intros H.
  - now rewrite H.
  - destruct (m_pinyin_context self); [reflexivity | contradiction].
  - now rewrite H.
  - destruct (m_chewing_context self); [reflexivity | contradiction].
Qed.

(** ** Teardown *)

(** C7: a back end destroyed while a save is scheduled saves the
    contexts that exist and removes the timeout source before it
    finishes any context, whatever the clock says; with no save
    scheduled it saves nothing and only finishes the contexts that
    exist.  [finalize] on a registered instance is this destructor. *)
Theorem forced_save_at_teardown
    (env : Env) (self static : LibPinyinBackEnd) (w : World) :
  (m_timeout_id self <> 0 ->
   trace (snd (destructor env self w)) =
     trace w
     ++ stamp (clock w)
          ([Ev_g_timer_destroy]
           ++ save_events env self
           ++ [Ev_g_source_remove (m_timeout_id self)]
           ++ fini_events self) /\
   pending self (snd (destructor env self w)) = false) /\
  (m_timeout_id self = 0 ->
   trace (snd (destructor env self w)) =
     trace w ++ stamp (clock w) ([Ev_g_timer_destroy] ++ fini_events self)) /\
  finalize env {| libpinyin_backend := static;
                  m_instance := Some self;
                  world := w |} =
  {| libpinyin_backend := static;
     m_instance := None;
     world := snd (destructor env self w) |}.
Proof.
  unfold finalize. cbn [m_instance libpinyin_backend world].
  rewrite destructor_eq. cbn [snd].
  split; [|split]; [intros H | intros H | reflexivity].
  - apply Z.eqb_neq in H. rewrite H. cbn [negb]. split.
    + unfold g_source_remove.
      repeat (rewrite ?trace_emits, ?clock_emits;
              cbn [trace emit detach clock]).
      unfold stamp. rewrite !map_app.
      cbn [map app]. rewrite <- !app_assoc. reflexivity.
    + pose proof (destructor_detaches env self w) as D.
      rewrite destructor_eq in D. cbn [snd] in D. rewrite H in D.
      apply D. now apply Z.eqb_neq.
  - rewrite H. cbn [Z.eqb negb]. rewrite trace_emits.
    cbn [clock emit trace]. unfold stamp. rewrite !map_app.
    cbn [map app]. rewrite <- !app_assoc. reflexivity.
Qed.

(** ** The singleton *)

(** C10: [finalize] with no instance registered changes nothing and
    cannot fail; after any [finalize] no instance is registered and the
    next [init] passes its assertion. *)
Theorem finalize_without_instance (env : Env) (p : Process) :
  (m_instance p = None -> finalize env p = p) /\
  m_instance (finalize env p) = None /\
  (exists p', init (finalize env p) = Some p').
Proof.
  unfold finalize. destruct (m_instance p) as [b|] eqn:E.
  - split; [discriminate|]. split; [reflexivity|].
    unfold init. cbn [m_instance]. eexists. reflexivity.
  - split; [reflexivity|]. split; [exact E|].
    unfold init. rewrite E. eexists. reflexivity.
Qed.

(** ** First allocation *)

(** C2, the Bopomofo half: the first Bopomofo allocation creates the
    directory [libbopomofo] under the user's cache with mode 0700, yet
    hands the engine no user directory, whether or not the directory
    could be created. *)
Theorem allocChewingInstance_ignores_userdir
    (env : Env) (self : LibPinyinBackEnd) (w : World) :
  m_chewing_context self = None ->
  exists rest,
    trace (snd (allocChewingInstance env self w)) =
    trace w
    ++ stamp (clock w)
         ([Ev_g_mkdir_with_parents
             (g_build_filename [home_dir env; ".cache"; "ibus"; "libbopomofo"])
             448 (mkdir_retval env);
           Ev_pinyin_init "/usr/share/libpinyin/data" None (init_retval env)]
          ++ rest).
Proof.
  intros H. rewrite (allocChewingInstance_first _ _ _ H). cbn [snd].
  rewrite trace_emits. eexists. reflexivity.
Qed.

(** ** The timer *)

Lemma modified_eq (self : LibPinyinBackEnd) (w : World) :
  modified self w =
  if m_timeout_id self =? 0
  then (set_m_timeout_id (Z.pos (next_source_id w))
          (set_m_timer {| timer_start := clock w |} self),
        {| clock := clock w;
           sources := sources w
                      ++ [{| source_id := next_source_id w;
                             source_interval := LIBPINYIN_SAVE_TIMEOUT |}];
           next_source_id := Pos.succ (next_source_id w);
           trace := trace w
                    ++ stamp (clock w)
                         [Ev_g_timer_start;
                          Ev_g_timeout_add_seconds LIBPINYIN_SAVE_TIMEOUT
                            (next_source_id w)] |})
  else (set_m_timer {| timer_start := clock w |} self, emit Ev_g_timer_start w).
Proof.
  unfold modified, g_timer_start, g_timeout_add_seconds.
  cbn [set_m_timer m_timeout_id].
  destruct (m_timeout_id self =? 0); cbn [negb]; [|reflexivity].
  unfold emit, stamp. cbn. rewrite <- app_assoc. reflexivity.
Qed.

Lemma timeoutCallback_eq (env : Env) (self : LibPinyinBackEnd) (w : World) :
  timeoutCallback env self w =
  if due self w
  then (FALSE, set_m_timeout_id 0 self, emits (save_events env self) w)
  else (TRUE, self, w).
Proof.
  unfold timeoutCallback, due. rewrite saveUserDB_eq. reflexivity.
Qed.

Lemma dispatch_eq (env : Env) (id : positive) (self : LibPinyinBackEnd)
    (w : World) :
  dispatch env id self w =
  if attached id w
  then if due self w
       then (set_m_timeout_id 0 self,
             detach (Z.pos id)
               (emits (save_events env self ++ [Ev_timeout_dispatched id FALSE])
                  w))
       else (self, emit (Ev_timeout_dispatched id TRUE) w)
  else (self, w).
Proof.
  unfold dispatch. rewrite timeoutCallback_eq.
  destruct (attached id w); [|reflexivity].
  destruct (due self w); [|reflexivity].
  rewrite emits_app. reflexivity.
Qed.

(** ** One operation at a time *)

Ltac solve_engine_events :=
  unfold options_events, chewing_options_events, scheme_events,
    chewing_scheme_events, save_events, fini_events, contexts, context_list;
  repeat match goal with
         | |- context [match ?x with _ => _ end] => destruct x
         end;
  cbn [app map]; repeat constructor.

Lemma engine_only_step (env : Env) (op : Op) (b : LibPinyinBackEnd)
    (w : World) :
  engine_only op = true ->
  exists d,
    snd (step env op (b, w)) = emits d w /\
    Forall (fun e => is_glib_timing e = false) d /\
    m_timeout_id (fst (step env op (b, w))) = m_timeout_id b /\
    m_timer (fst (step env op (b, w))) = m_timer b.
Proof.
  destruct op; try discriminate; intros _; cbn [step].
  - destruct (m_pinyin_context b) as [c|] eqn:E.
    + rewrite (allocPinyinInstance_existing env b w c E).
      eexists; repeat split; [solve_engine_events].
    + rewrite (allocPinyinInstance_first env b w E).
      eexists; repeat split; [solve_engine_events].
  - exists [Ev_pinyin_free_instance instance]. repeat split.
    repeat constructor.
  - destruct (m_chewing_context b) as [c|] eqn:E.
    + rewrite (allocChewingInstance_existing env b w c E).
      eexists; repeat split; [solve_engine_events].
    + rewrite (allocChewingInstance_first env b w E).
      eexists; repeat split; [solve_engine_events].
  - exists [Ev_pinyin_free_instance instance]. repeat split.
    repeat constructor.
  - rewrite setPinyinOptions_eq. destruct (m_pinyin_context b) as [c|].
    + eexists; repeat split; [solve_engine_events].
    + exists []; repeat split. constructor.
  - rewrite setChewingOptions_eq. destruct (m_chewing_context b) as [c|].
    + eexists; repeat split; [solve_engine_events].
    + exists []; repeat split. constructor.
  - rewrite saveUserDB_eq.
    eexists; repeat split; [solve_engine_events].
Qed.

Lemma stop_times_app (l1 l2 : list (Z * Event)) :
  stop_times (l1 ++ l2) = stop_times l1 ++ stop_times l2.
Proof.
  unfold stop_times. now rewrite filter_app, map_app.
Qed.

Lemma live_backends_app (l1 l2 : list (Z * Event)) :
  live_backends (l1 ++ l2) = live_backends l1 + live_backends l2.
Proof.
  unfold live_backends.
  induction l1 as [|te l1 IH]; cbn [app fold_right]; [reflexivity|].
  rewrite IH. lia.
Qed.

Lemma engine_events_stop_times (now : Z) (d : list Event) :
  Forall (fun e => is_glib_timing e = false) d ->
  stop_times (stamp now d) = [].
Proof.
  induction 1 as [|e d He _ IH]; [reflexivity|].
  unfold stop_times, stamp in *. cbn [map filter snd].
  destruct e; try discriminate; exact IH.
Qed.

Lemma engine_events_live_backends (now : Z) (d : list Event) :
  Forall (fun e => is_glib_timing e = false) d ->
  live_backends (stamp now d) = 0.
Proof.
  induction 1 as [|e d He _ IH]; [reflexivity|].
  unfold live_backends, stamp in *. cbn [map fold_right snd].
  rewrite IH. destruct e; try discriminate; reflexivity.
Qed.

Ltac engine_cases env b w :=
  match goal with
  | |- context [step env ?o (b, w)] =>
      destruct (engine_only_step env o b w eq_refl) as (?d & ?Hw & ?Hd & ?Hid & ?Htimer)
  end.

Lemma step_timeout_id (env : Env) (op : Op) (b : LibPinyinBackEnd) (w : World) :
  m_timeout_id (fst (step env op (b, w))) =
  match op with
  | Op_modified =>
      if m_timeout_id b =? 0 then Z.pos (next_source_id w) else m_timeout_id b
  | Op_timeout _ => if step_stops op b w then 0 else m_timeout_id b
  | _ => m_timeout_id b
  end.
Proof.
  destruct op; try (engine_cases env b w; assumption); cbn [step step_stops].
  - rewrite modified_eq. destruct (m_timeout_id b =? 0); reflexivity.
  - rewrite dispatch_eq. destruct (attached id w), (due b w); reflexivity.
  - reflexivity.
Qed.

Lemma step_timer (env : Env) (op : Op) (b : LibPinyinBackEnd) (w : World) :
  m_timer (fst (step env op (b, w))) =
  match op with
  | Op_modified => {| timer_start := clock w |}
  | _ => m_timer b
  end.
Proof.
  destruct op; try (engine_cases env b w; assumption); cbn [step].
  - rewrite modified_eq. destruct (m_timeout_id b =? 0); reflexivity.
  - rewrite dispatch_eq. destruct (attached id w), (due b w); reflexivity.
  - reflexivity.
Qed.


Lemma step_sources (env : Env) (op : Op) (b : LibPinyinBackEnd) (w : World) :
  sources (snd (step env op (b, w))) =
  match op with
  | Op_modified =>
      if m_timeout_id b =? 0
      then sources w ++ [{| source_id := next_source_id w;
                            source_interval := LIBPINYIN_SAVE_TIMEOUT |}]
      else sources w
  | Op_timeout id =>
      if step_stops op b w
      then filter (fun s => negb (Z.pos (source_id s) =? Z.pos id)) (sources w)
      else sources w
  | _ => sources w
  end.
Proof.
  destruct op;
    try (engine_cases env b w; rewrite Hw; apply sources_emits);
    cbn [step step_stops].
  - rewrite modified_eq. destruct (m_timeout_id b =? 0); reflexivity.
  - rewrite dispatch_eq. destruct (attached id w), (due b w); try reflexivity.
    cbn [snd detach sources andb]. now rewrite sources_emits.
  - reflexivity.
Qed.

Lemma step_stop_times (env : Env) (op : Op) (b : LibPinyinBackEnd)
    (w : World) :
  stop_times (trace (snd (step env op (b, w)))) =
  stop_times (trace w) ++ (if step_stops op b w then [clock w] else []).
Proof.
  destruct op;
    try (engine_cases env b w; rewrite Hw, trace_emits, stop_times_app,
           engine_events_stop_times by assumption; reflexivity);
    cbn [step step_stops].
  - rewrite modified_eq.
    destruct (m_timeout_id b =? 0); cbn [snd trace emit];
      now rewrite stop_times_app.
  - rewrite dispatch_eq. destruct (attached id w), (due b w);
      cbn [snd detach trace emit andb]; rewrite ?app_nil_r; try reflexivity.
    + rewrite trace_emits, stop_times_app. f_equal.
      unfold stamp. rewrite map_app, stop_times_app.
      fold (stamp (clock w) (save_events env b)).
      rewrite engine_events_stop_times by solve_engine_events. reflexivity.
    + now rewrite stop_times_app, app_nil_r.
  - now rewrite app_nil_r.
Qed.

Lemma step_live_backends (env : Env) (op : Op) (b : LibPinyinBackEnd)
    (w : World) :
  live_backends (trace (snd (step env op (b, w)))) = live_backends (trace w).
Proof.
  destruct op;
    try (engine_cases env b w; rewrite Hw, trace_emits, live_backends_app,
           engine_events_live_backends by assumption; lia);
    cbn [step].
  - rewrite modified_eq.
    destruct (m_timeout_id b =? 0); cbn [snd trace emit];
      rewrite live_backends_app; cbn; lia.
  - rewrite dispatch_eq. destruct (attached id w), (due b w);
      cbn [snd detach trace emit]; try reflexivity.
    + rewrite trace_emits, live_backends_app.
      unfold stamp. rewrite map_app, live_backends_app.
      fold (stamp (clock w) (save_events env b)).
      rewrite engine_events_live_backends by solve_engine_events. cbn. lia.
    + rewrite live_backends_app. cbn. lia.
  - reflexivity.
Qed.

Ltac context_case :=
  cbn [fst snd set_m_chewing_context set_m_pinyin_context set_m_timeout_id
       set_m_timer m_pinyin_context m_chewing_context];
  repeat match goal with
         | |- context [match ?x with _ => _ end] => destruct x eqn:?
         end;
  cbn [fst snd set_m_chewing_context set_m_pinyin_context set_m_timeout_id
       set_m_timer m_pinyin_context m_chewing_context];
  congruence.

Lemma step_pinyin_context (env : Env) (op : Op) (b : LibPinyinBackEnd)
    (w : World) :
  m_pinyin_context (fst (step env op (b, w))) =
  match op, m_pinyin_context b with
  | Op_allocPinyinInstance, None => init_retval env
  | _, context => context
  end.
Proof.
  destruct op; cbn [step]; try context_case.
  - destruct (m_pinyin_context b) as [c|] eqn:E.
    + now rewrite (allocPinyinInstance_existing env b w c E).
    + now rewrite (allocPinyinInstance_first env b w E).
  - destruct (m_chewing_context b) as [c|] eqn:E.
    + rewrite (allocChewingInstance_existing env b w c E). context_case.
    + rewrite (allocChewingInstance_first env b w E). context_case.
  - rewrite modified_eq. context_case.
  - rewrite dispatch_eq. context_case.
Qed.

Lemma step_chewing_context (env : Env) (op : Op) (b : LibPinyinBackEnd)
    (w : World) :
  m_chewing_context (fst (step env op (b, w))) =
  match op, m_chewing_context b with
  | Op_allocChewingInstance, None => init_retval env
  | _, context => context
  end.
Proof.
  destruct op; cbn [step]; try context_case.
  - destruct (m_pinyin_context b) as [c|] eqn:E.
    + rewrite (allocPinyinInstance_existing env b w c E). context_case.
    + rewrite (allocPinyinInstance_first env b w E). context_case.
  - destruct (m_chewing_context b) as [c|] eqn:E.
    + now rewrite (allocChewingInstance_existing env b w c E).
    + now rewrite (allocChewingInstance_first env b w E).
  - rewrite modified_eq. context_case.
  - rewrite dispatch_eq. context_case.
Qed.

Lemma scheduled_pending (b : LibPinyinBackEnd) (w : World) :
  scheduled b w -> pending b w = negb (m_timeout_id b =? 0).
Proof.
  unfold scheduled, pending.
  intros [[Hid Hs] | (id & Hid & Hs)]; rewrite Hid, Hs; cbn [existsb source_id].
  - reflexivity.
  - now rewrite Z.eqb_refl.
Qed.

Lemma step_scheduled (env : Env) (op : Op) (b : LibPinyinBackEnd) (w : World) :
  scheduled b w ->
  scheduled (fst (step env op (b, w))) (snd (step env op (b, w))).
Proof.
  intros H. unfold scheduled in *.
  rewrite step_timeout_id, step_sources.
  destruct op; try exact H; cbn [step_stops].
  - destruct H as [[Hid Hs] | (id & Hid & Hs)]; rewrite Hid, Hs.
    + right. exists (next_source_id w). cbn. auto.
    + right. exists id. cbn. auto.
  - destruct (attached id w && due b w) eqn:E; [|exact H].
    left. split; [reflexivity|].
    apply andb_prop in E. destruct E as [Ha _]. unfold attached in Ha.
    destruct H as [[Hid Hs] | (k & Hid & Hs)]; rewrite Hs in *.
    + reflexivity.
    + cbn [existsb source_id orb] in Ha. rewrite orb_false_r in Ha.
      apply Pos.eqb_eq in Ha. subst k. cbn [filter source_id].
      now rewrite Z.eqb_refl.
Qed.

Lemma run_cons (eo : Env * Op) (ops : list (Env * Op))
    (s : LibPinyinBackEnd * World) :
  run (eo :: ops) s = run ops (step (fst eo) (snd eo) s).
Proof.
  reflexivity.
Qed.


Lemma run_scheduled (ops : list (Env * Op)) (s : LibPinyinBackEnd * World) :
  scheduled (fst s) (snd s) ->
  scheduled (fst (run ops s)) (snd (run ops s)).
Proof.
  revert s. induction ops as [|[env op] ops IH]; intros [b w] H; [exact H|].
  rewrite run_cons. apply IH. cbn [fst snd]. now apply step_scheduled.
Qed.

Lemma constructor_scheduled (w : World) :
  sources w = [] ->
  scheduled (fst (constructor w)) (snd (constructor w)).
Proof.
  intros H. left. cbn. auto.
Qed.


(** Less than the save interval after the timer was started the save is
    not due. *)
Lemma not_due_early (b : LibPinyinBackEnd) (w : World) :
  timer_start (m_timer b) <= clock w ->
  clock w < timer_start (m_timer b) + quiet_interval ->
  due b w = false.
Proof.
  unfold due, guint_of_elapsed, g_timer_elapsed, quiet_interval,
    LIBPINYIN_SAVE_TIMEOUT.
  intros Hle Hlt. apply Z.leb_gt.
  set (x := clock w - timer_start (m_timer b)) in *.
  assert (Hx : 0 <= x < 300000000) by (unfold x; lia).
  rewrite Z.quot_div_nonneg by lia.
  assert (Hq : 0 <= x / 1000000 < 300).
  { split; [apply Z.div_pos; lia|].
    apply Z.div_lt_upper_bound; lia. }
  rewrite Z.mod_small by lia. lia.
Qed.

(** From the save interval on, and as long as the seconds fit the
    32 bits of the cast, the save is due. *)
Lemma due_late (b : LibPinyinBackEnd) (w : World) :
  timer_start (m_timer b) + quiet_interval <= clock w ->
  clock w - timer_start (m_timer b) < 2 ^ 32 * 1000000 ->
  due b w = true.
Proof.
  unfold due, guint_of_elapsed, g_timer_elapsed, quiet_interval,
    LIBPINYIN_SAVE_TIMEOUT.
  intros Hle Hlt. apply Z.leb_le.
  set (x := clock w - timer_start (m_timer b)) in *.
  assert (Hx : 300000000 <= x) by (unfold x; lia).
  rewrite Z.quot_div_nonneg by lia.
  assert (Hq : 300 <= x / 1000000 < 2 ^ 32).
  { split; [apply Z.div_le_lower_bound; lia|].
    apply Z.div_lt_upper_bound; lia. }
  rewrite Z.mod_small by lia. lia.
Qed.

Lemma timeoutCallback_late (env : Env) (b : LibPinyinBackEnd) (w : World) :
  timer_start (m_timer b) + 300000000 <= clock w ->
  clock w - timer_start (m_timer b) < 2 ^ 32 * 1000000 ->
  timeoutCallback env b w =
  (FALSE, set_m_timeout_id 0 b, snd (saveUserDB env b w)).
Proof.
  intros Hle Hlt. rewrite timeoutCallback_eq, saveUserDB_eq.
  now rewrite (due_late b w Hle Hlt).
Qed.

Lemma timeoutCallback_early (env : Env) (b : LibPinyinBackEnd) (w : World) :
  timer_start (m_timer b) <= clock w ->
  clock w < timer_start (m_timer b) + 300000000 ->
  timeoutCallback env b w = (TRUE, b, w).
Proof.
  intros Hle Hlt. rewrite timeoutCallback_eq.
  now rewrite (not_due_early b w Hle Hlt).
Qed.


Lemma destructor_sources (env : Env) (b : LibPinyinBackEnd) (w : World) :
  scheduled b w -> sources (snd (destructor env b w)) = [].
Proof.
  rewrite destructor_eq. cbn [snd]. unfold g_source_remove.
  intros [[Hid Hs] | (id & Hid & Hs)]; rewrite Hid; cbn [Z.eqb negb].
  - rewrite sources_emits. exact Hs.
  - rewrite sources_emits. cbn [sources emit detach].
    rewrite sources_emits. cbn [sources emit]. rewrite Hs.
    cbn [filter source_id]. now rewrite Z.eqb_refl.
Qed.


(** ** Lazy creation of the contexts *)

Lemma run_pinyin_context (ops : list (Env * Op)) (b : LibPinyinBackEnd)
    (w : World) :
  m_pinyin_context (fst (run ops (b, w))) <> None <->
  m_pinyin_context b <> None \/ Exists is_pinyin_alloc_with_context ops.
Proof.
  revert b w. induction ops as [|[env op] ops IH]; intros b w.
  - cbn. split; [auto|]. intros [H|H]; [exact H | inversion H].
  - rewrite run_cons. cbn [fst snd].
    destruct (step env op (b, w)) as [b' w'] eqn:E.
    rewrite IH. pose proof (step_pinyin_context env op b w) as Hc.
    rewrite E in Hc. cbn [fst] in Hc. rewrite Hc. clear Hc E.
    rewrite Exists_cons. unfold is_pinyin_alloc_with_context at 2.
    cbn [fst snd].
    destruct op, (m_pinyin_context b) as [c|];
      intuition (try discriminate; try congruence).
Qed.

Lemma run_chewing_context (ops : list (Env * Op)) (b : LibPinyinBackEnd)
    (w : World) :
  m_chewing_context (fst (run ops (b, w))) <> None <->
  m_chewing_context b <> None \/ Exists is_chewing_alloc_with_context ops.
Proof.
  revert b w. induction ops as [|[env op] ops IH]; intros b w.
  - cbn. split; [auto|]. intros [H|H]; [exact H | inversion H].
  - rewrite run_cons. cbn [fst snd].
    destruct (step env op (b, w)) as [b' w'] eqn:E.
    rewrite IH. pose proof (step_chewing_context env op b w) as Hc.
    rewrite E in Hc. cbn [fst] in Hc. rewrite Hc. clear Hc E.
    rewrite Exists_cons. unfold is_chewing_alloc_with_context at 2.
    cbn [fst snd].
    destruct op, (m_chewing_context b) as [c|];
      intuition (try discriminate; try congruence).
Qed.

(** C4, in the form the code satisfies: right after construction
    neither context exists; the context of a family exists if and only if some allocation for that
    family has happened in which the engine's init gave a context (an
    allocation whose init gives NULL leaves the context null); and an
    allocation for a family whose context exists keeps that context and
    calls no init. *)
Theorem lazy_context_creation
    (ops : list (Env * Op)) (w0 : World) (env : Env)
    (self : LibPinyinBackEnd) (w : World) (c : pinyin_context_t) :
  (m_pinyin_context (fst (constructor w0)) = None /\
   m_chewing_context (fst (constructor w0)) = None) /\
  (m_pinyin_context (fst (run ops (constructor w0))) <> None <->
   Exists is_pinyin_alloc_with_context ops) /\
  (m_chewing_context (fst (run ops (constructor w0))) <> None <->
   Exists is_chewing_alloc_with_context ops) /\
  (m_pinyin_context self = Some c ->
   exists d,
     allocPinyinInstance env self w = (alloc_retval env, self, emits d w) /\
     Forall (fun e => is_init e = false) d) /\
  (m_chewing_context self = Some c ->
   exists d,
     allocChewingInstance env self w = (alloc_retval env, self, emits d w) /\
     Forall (fun e => is_init e = false) d).
Proof.
  split; [split; reflexivity|].
  unfold constructor. cbn [g_timer_new].
  rewrite run_pinyin_context, run_chewing_context. cbn [m_pinyin_context
    m_chewing_context].
  repeat split; try tauto; intros H.
  - eexists. split; [apply (allocPinyinInstance_existing env self w c H)|].
    solve_engine_events.
  - eexists. split; [apply (allocChewingInstance_existing env self w c H)|].
    solve_engine_events.
Qed.

(** ** The pending timer *)

(** C6, in the form the code satisfies: at construction [m_timeout_id]
    is zero and no save timer is attached.  In every state a live back
    end can reach from its construction, [m_timeout_id] is non-zero if
    and only if a save timer is attached to the main loop, that is, a
    save is scheduled and not yet done, and the timer attached is the
    one [m_timeout_id] names.  The destructor takes the timer off the
    main loop but leaves [m_timeout_id] as it was. *)
Theorem pending_timer_invariant
    (ops : list (Env * Op)) (now : Z) (next : positive) (env : Env) :
  (m_timeout_id (fst (constructor (boot now next))) = 0 /\
   sources (snd (constructor (boot now next))) = []) /\
  (m_timeout_id (fst (run ops (constructor (boot now next)))) <> 0 <->
   sources (snd (run ops (constructor (boot now next)))) <> []) /\
  (forall src,
     In src (sources (snd (run ops (constructor (boot now next))))) ->
     Z.pos (source_id src) =
       m_timeout_id (fst (run ops (constructor (boot now next))))) /\
  (m_timeout_id (fst (run ops (constructor (boot now next)))) <> 0 <->
   pending (fst (run ops (constructor (boot now next))))
           (snd (run ops (constructor (boot now next)))) = true) /\
  m_timeout_id
    (fst (destructor env (fst (run ops (constructor (boot now next))))
            (snd (run ops (constructor (boot now next)))))) =
    m_timeout_id (fst (run ops (constructor (boot now next)))) /\
  sources
    (snd (destructor env (fst (run ops (constructor (boot now next))))
            (snd (run ops (constructor (boot now next)))))) = [].
Proof.
  pose proof (run_scheduled ops (constructor (boot now next))
                (constructor_scheduled (boot now next) eq_refl)) as Hs.
  split; [split; reflexivity|].
  split; [|split; [|split; [|split]]].
  - destruct Hs as [[Hid H] | (id & Hid & H)]; rewrite Hid, H; split;
      intros E; congruence.
  - intros src Hin.
    destruct Hs as [[Hid H] | (id & Hid & H)]; rewrite H in Hin.
    + destruct Hin.
    + destruct Hin as [<-|[]]. now rewrite Hid.
  - rewrite (scheduled_pending _ _ Hs).
    destruct (Z.eqb_spec
                (m_timeout_id (fst (run ops (constructor (boot now next))))) 0)
      as [E|E]; cbn [negb]; split; intros H; congruence.
  - rewrite destructor_eq. reflexivity.
  - now apply destructor_sources.
Qed.

(** ** Options of the Pinyin family *)

Lemma map_snd_stamp (now : Z) (d : list Event) : map snd (stamp now d) = d.
Proof.
  unfold stamp. rewrite map_map. cbn [snd]. apply map_id.
Qed.

Lemma current_scheme_app (c : pinyin_context_t) (l1 l2 : list Event) :
  current_scheme c (l1 ++ l2) =
  match current_scheme c l2 with
  | Some scheme => Some scheme
  | None => current_scheme c l1
  end.
Proof.
  induction l1 as [|e l1 IH]; cbn [app current_scheme].
  - destruct (current_scheme c l2); reflexivity.
  - rewrite IH. destruct (current_scheme c l2); reflexivity.
Qed.

Lemma current_scheme_scheme_events (map : Z) (c : pinyin_context_t) :
  current_scheme c (scheme_events map c) = scheme_of_selector map.
Proof.
  unfold scheme_events. destruct (scheme_of_selector map); [|reflexivity].
  cbn [current_scheme]. now rewrite Pos.eqb_refl.
Qed.

Lemma current_scheme_other (c : pinyin_context_t) (d : list Event) :
  Forall (fun e => is_option_call e = false) d -> current_scheme c d = None.
Proof.
  induction 1 as [|e d He _ IH]; [reflexivity|].
  cbn [current_scheme]. rewrite IH. destruct e; try discriminate; reflexivity.
Qed.

Lemma scheme_of_selector_table (map : Z) :
  scheme_of_selector map =
  option_map snd (find (fun entry => map =? fst entry) double_pinyin_options).
Proof.
  unfold scheme_of_selector. cbn [find double_pinyin_options fst].
  destruct (map =? 0); [reflexivity|].
  destruct (map =? 1); [reflexivity|].
  destruct (map =? 2); [reflexivity|].
  destruct (map =? 3); [reflexivity|].
  destruct (map =? 4); [reflexivity|].
  destruct (map =? 5); reflexivity.
Qed.

Lemma scheme_of_selector_range (map : Z) :
  scheme_of_selector map <> None <-> 0 <= map <= 5.
Proof.
  unfold scheme_of_selector.
  destruct (Z.eqb_spec map 0); [split; [lia | discriminate]|].
  destruct (Z.eqb_spec map 1); [split; [lia | discriminate]|].
  destruct (Z.eqb_spec map 2); [split; [lia | discriminate]|].
  destruct (Z.eqb_spec map 3); [split; [lia | discriminate]|].
  destruct (Z.eqb_spec map 4); [split; [lia | discriminate]|].
  destruct (Z.eqb_spec map 5); [split; [lia | discriminate]|].
  split; [congruence | lia].
Qed.

Lemma allocPinyinInstance_trace (env : Env) (self : LibPinyinBackEnd)
    (w : World) (c : pinyin_context_t) :
  m_pinyin_context (snd (fst (allocPinyinInstance env self w))) = Some c ->
  exists creation,
    trace (snd (allocPinyinInstance env self w)) =
      trace w
      ++ stamp (clock w)
           (creation
            ++ scheme_events (doublePinyinSchema (pinyin_config env)) c
            ++ [Ev_pinyin_set_options c
                  (Z.lor (config_option (pinyin_config env)) USE_RESPLIT_TABLE);
                Ev_pinyin_alloc_instance (Some c) (alloc_retval env)]) /\
    Forall (fun e => is_option_call e = false) creation /\
    (m_pinyin_context self <> None -> creation = []).
Proof.
  destruct (m_pinyin_context self) as [c0|] eqn:E.
  - rewrite (allocPinyinInstance_existing env self w c0 E). cbn [fst snd].
    intros H. assert (c0 = c) by congruence. subst c0.
    exists []. rewrite trace_emits. unfold options_events.
    rewrite <- app_assoc. repeat split; auto.
  - rewrite (allocPinyinInstance_first env self w E).
    cbn [fst snd set_m_pinyin_context m_pinyin_context]. intros H. rewrite H.
    exists [Ev_g_mkdir_with_parents
              (g_build_filename [home_dir env; ".cache"; "ibus"; "libpinyin"])
              448 (mkdir_retval env);
            Ev_pinyin_init "/usr/share/libpinyin/data"
              (if negb (mkdir_retval env =? 0) then None
               else Some (g_build_filename
                            [home_dir env; ".cache"; "ibus"; "libpinyin"]))
              (Some c)].
    rewrite trace_emits. unfold options_events.
    rewrite <- !app_assoc. split; [reflexivity|].
    split; [repeat constructor | congruence].
Qed.

(** C5, in the form the code satisfies: on every Pinyin allocation
    that leaves the back end with a context (one that existed, or one the engine's init has just
    given) the configuration is read again and applied to it: a selector
    from 0 to 5 sets the scheme of the table (MS, ZRM, ABC, ZIGUANG,
    PYJJ, XHE), any other selector leaves the scheme last set as it was,
    and the flags pushed are the configuration's flags or-ed with
    [USE_RESPLIT_TABLE], whatever the selector; nothing is created when
    the context existed. *)
Theorem pinyin_options_reapplied
    (env : Env) (self : LibPinyinBackEnd) (w : World) (c : pinyin_context_t) :
  m_pinyin_context (snd (fst (allocPinyinInstance env self w))) = Some c ->
  (exists creation,
     trace (snd (allocPinyinInstance env self w)) =
       trace w
       ++ stamp (clock w)
            (creation
             ++ scheme_events (doublePinyinSchema (pinyin_config env)) c
             ++ [Ev_pinyin_set_options c
                   (Z.lor (config_option (pinyin_config env))
                      USE_RESPLIT_TABLE);
                 Ev_pinyin_alloc_instance (Some c) (alloc_retval env)]) /\
     Forall (fun e => is_option_call e = false) creation /\
     (m_pinyin_context self <> None -> creation = [])) /\
  current_scheme c (map snd (trace (snd (allocPinyinInstance env self w)))) =
    match scheme_of_selector (doublePinyinSchema (pinyin_config env)) with
    | Some scheme => Some scheme
    | None => current_scheme c (map snd (trace w))
    end /\
  (scheme_of_selector (doublePinyinSchema (pinyin_config env)) <> None <->
   0 <= doublePinyinSchema (pinyin_config env) <= 5) /\
  scheme_of_selector (doublePinyinSchema (pinyin_config env)) =
    option_map snd
      (find (fun entry => doublePinyinSchema (pinyin_config env) =? fst entry)
         double_pinyin_options) /\
  map scheme_of_selector [0; 1; 2; 3; 4; 5] =
    [Some DOUBLE_PINYIN_MS; Some DOUBLE_PINYIN_ZRM; Some DOUBLE_PINYIN_ABC;
     Some DOUBLE_PINYIN_ZIGUANG; Some DOUBLE_PINYIN_PYJJ;
     Some DOUBLE_PINYIN_XHE].
Proof.
  intros H.
  destruct (allocPinyinInstance_trace env self w c H) as (cr & Ht & Hcr & Hex).
  split; [exists cr; auto|].
  split; [|split; [apply scheme_of_selector_range|
                   split; [apply scheme_of_selector_table | reflexivity]]].
  rewrite Ht, map_app, map_snd_stamp, !current_scheme_app.
  cbn [current_scheme]. rewrite current_scheme_scheme_events.
  rewrite (current_scheme_other c cr Hcr).
  destruct (scheme_of_selector (doublePinyinSchema (pinyin_config env)));
    reflexivity.
Qed.

(** ** The instances of the process *)

Lemma destructor_live_backends (env : Env) (b : LibPinyinBackEnd) (w : World) :
  live_backends (trace (snd (destructor env b w))) =
  live_backends (trace w) - 1.
Proof.
  rewrite destructor_eq. cbn [snd]. rewrite trace_emits, live_backends_app.
  rewrite engine_events_live_backends by solve_engine_events.
  destruct (negb (m_timeout_id b =? 0)).
  - unfold g_source_remove. cbn [trace emit detach].
    rewrite trace_emits, !live_backends_app.
    rewrite engine_events_live_backends by solve_engine_events.
    cbn [trace emit]. rewrite live_backends_app.
    cbn [live_backends fold_right snd backend_delta]. lia.
  - cbn [trace emit]. rewrite live_backends_app.
    cbn [live_backends fold_right snd backend_delta]. lia.
Qed.

Lemma startup_balanced (now : Z) (next : positive) :
  balanced (startup (boot now next)).
Proof.
  reflexivity.
Qed.

Lemma process_step_balanced (env : Env) (op : ProcessOp) (p p' : Process) :
  process_step env op p = Some p' -> balanced p -> balanced p'.
Proof.
  unfold balanced, instances. destruct op; cbn [process_step].
  - unfold init. destruct (m_instance p); [discriminate|].
    intros [= <-]. cbn [constructor g_timer_new world m_instance
                         libpinyin_backend trace emit].
    rewrite live_backends_app. cbn [List.length live_backends fold_right snd
                                    backend_delta].
    intros ->. cbn [List.length]. lia.
  - intros [= <-]. unfold finalize.
    destruct (m_instance p) as [b|] eqn:E; [|now rewrite E].
    cbn [world m_instance libpinyin_backend].
    rewrite destructor_live_backends. intros ->. cbn [List.length]. lia.
  - destruct (m_instance p) as [b|]; [|discriminate].
    destruct (step env op (b, world p)) as [b' w'] eqn:E.
    intros [= <-]. cbn [world m_instance libpinyin_backend].
    pose proof (step_live_backends env op b (world p)) as L.
    rewrite E in L. cbn [snd] in L. rewrite L. auto.
Qed.

Lemma process_run_balanced (ops : list (Env * ProcessOp)) (p p' : Process) :
  process_run ops p = Some p' -> balanced p -> balanced p'.
Proof.
  revert p. induction ops as [|[env op] ops IH]; intros p; cbn [process_run].
  - now intros [= <-].
  - destruct (process_step env op p) as [p1|] eqn:E; [|discriminate].
    intros H B. apply (IH p1 H). exact (process_step_balanced env op p p1 E B).
Qed.

(** At every point the process can reach, the back ends alive are the
    static object [libpinyin_backend] and at most one registered
    instance, so one or two of them and never more; and [init] called
    while an instance is registered fails its assertion. *)
Lemma static_and_registered_instances
    (ops : list (Env * ProcessOp)) (now : Z) (next : positive) (p : Process) :
  process_run ops (startup (boot now next)) = Some p ->
  live_backends (trace (world p)) = Z.of_nat (List.length (instances p)) /\
  (1 <= List.length (instances p) <= 2)%nat /\
  (List.length (instances p) = 2%nat <-> m_instance p <> None) /\
  (m_instance p <> None -> init p = None).
Proof.
  intros H. split.
  - exact (process_run_balanced ops _ p H (startup_balanced now next)).
  - unfold instances, init.
    destruct (m_instance p); cbn [List.length]; repeat split;
      try lia; try congruence; try discriminate.
Qed.

(** ** Coalescing of saves *)



Lemma attached_scheduled (id : positive) (b : LibPinyinBackEnd) (w : World) :
  scheduled b w -> attached id w = true -> m_timeout_id b <> 0.
Proof.
  unfold attached. intros [[_ Hs] | (k & Hid & _)] Ha.
  - rewrite Hs in Ha. discriminate.
  - rewrite Hid. discriminate.
Qed.








(** ** More about the timer *)

Lemma count_events_app (f : Event -> bool) (l1 l2 : list (Z * Event)) :
  count_events f (l1 ++ l2) = (count_events f l1 + count_events f l2)%nat.
Proof.
  unfold count_events. now rewrite filter_app, length_app.
Qed.

Lemma count_events_none (f : Event -> bool) (now : Z) (d : list Event) :
  Forall (fun e => f e = false) d -> count_events f (stamp now d) = 0%nat.
Proof.
  induction 1 as [|e d He _ IH]; [reflexivity|].
  unfold count_events, stamp in *. cbn [map filter snd]. now rewrite He.
Qed.

Lemma count_events_stop_times (events : list (Z * Event)) :
  count_events is_stop events = List.length (stop_times events).
Proof.
  unfold count_events, stop_times. now rewrite length_map.
Qed.

Lemma timing_free_no_schedule (d : list Event) :
  Forall (fun e => is_glib_timing e = false) d ->
  Forall (fun e => is_schedule e = false) d.
Proof.
  apply Forall_impl. intros e. destruct e; auto; discriminate.
Qed.

Lemma step_schedulings (env : Env) (op : Op) (b : LibPinyinBackEnd)
    (w : World) :
  count_events is_schedule (trace (snd (step env op (b, w)))) =
  (count_events is_schedule (trace w)
   + match op with
     | Op_modified => if Z.eqb (m_timeout_id b) 0%Z then 1 else 0
     | _ => 0
     end)%nat.
Proof.
  destruct op;
    try (engine_cases env b w; rewrite Hw, trace_emits, count_events_app,
           count_events_none by (now apply timing_free_no_schedule);
         reflexivity);
    cbn [step].
  - rewrite modified_eq.
    destruct (m_timeout_id b =? 0); cbn [snd trace emit];
      now rewrite count_events_app.
  - rewrite dispatch_eq. destruct (attached id w), (due b w);
      cbn [snd detach trace emit]; rewrite ?trace_emits, ?count_events_app;
      try reflexivity; try (now rewrite Nat.add_0_r).
    rewrite count_events_none; [reflexivity|].
    apply Forall_app. split; [solve_engine_events | repeat constructor].
  - now rewrite Nat.add_0_r.
Qed.

Lemma step_pending_count (env : Env) (op : Op) (b : LibPinyinBackEnd)
    (w : World) :
  scheduled b w ->
  (pending_count (fst (step env op (b, w))) (snd (step env op (b, w)))
   + (if step_stops op b w then 1 else 0)
   = pending_count b w
     + match op with
       | Op_modified => if Z.eqb (m_timeout_id b) 0%Z then 1 else 0
       | _ => 0
       end)%nat.
Proof.
  intros Hs. pose proof (step_scheduled env op b w Hs) as Hs'.
  unfold pending_count.
  rewrite (scheduled_pending _ _ Hs'), (scheduled_pending _ _ Hs).
  rewrite step_timeout_id.
  destruct op; cbn [step_stops]; try lia.
  - destruct (m_timeout_id b =? 0) eqn:E; cbn [negb Z.eqb]; [reflexivity|].
    rewrite E. reflexivity.
  - destruct (attached id w) eqn:Ha, (due b w); cbn [andb negb Z.eqb];
      try lia.
    pose proof (attached_scheduled id b w Hs Ha) as Hne.
    apply Z.eqb_neq in Hne. rewrite Hne. reflexivity.
Qed.

Lemma run_save_accounting (ops : list (Env * Op)) (b : LibPinyinBackEnd)
    (w : World) :
  scheduled b w ->
  (count_events is_schedule (trace (snd (run ops (b, w))))
   + List.length (stop_times (trace w)) + pending_count b w
   = count_events is_schedule (trace w)
     + List.length (stop_times (trace (snd (run ops (b, w)))))
     + pending_count (fst (run ops (b, w))) (snd (run ops (b, w))))%nat.
Proof.
  revert b w. induction ops as [|[env op] ops IH]; intros b w Hs;
    [cbn [run fold_left fst snd]; lia|].
  rewrite run_cons. cbn [fst snd].
  pose proof (step_scheduled env op b w Hs) as Hs1.
  pose proof (step_schedulings env op b w) as Hsch.
  pose proof (step_pending_count env op b w Hs) as Hp.
  pose proof (step_stop_times env op b w) as Hst.
  destruct (step env op (b, w)) as [b1 w1]. cbn [fst snd] in *.
  specialize (IH b1 w1 Hs1). rewrite Hsch, Hst, length_app in IH.
  destruct (step_stops op b w); cbn [List.length] in *; lia.
Qed.

(** X1: in every state a back end reaches from its construction, the
    save timers added so far are the scheduled saves done plus the one
    still pending, if any: no timer is added that neither saves nor is
    pending, and no scheduled save is done without its timer. *)
Theorem every_save_was_scheduled
    (ops : list (Env * Op)) (now : Z) (next : positive) :
  count_events is_schedule
    (trace (snd (run ops (constructor (boot now next))))) =
  (List.length
     (stop_times (trace (snd (run ops (constructor (boot now next))))))
   + pending_count (fst (run ops (constructor (boot now next))))
       (snd (run ops (constructor (boot now next)))))%nat.
Proof.
  pose proof (run_save_accounting ops (fst (constructor (boot now next)))
                (snd (constructor (boot now next)))
                (constructor_scheduled (boot now next) eq_refl)) as H.
  cbn [constructor g_timer_new fst snd] in *.
  change (count_events is_schedule (trace (emit Ev_g_timer_new (boot now next))))
    with 0%nat in H.
  change (stop_times (trace (emit Ev_g_timer_new (boot now next))))
    with (@nil Z) in H.
  change (pending_count
            {| m_timeout_id := 0;
               m_timer := {| timer_start := clock (boot now next) |};
               m_pinyin_context := None;
               m_chewing_context := None |}
            (emit Ev_g_timer_new (boot now next))) with 0%nat in H.
  cbn [List.length] in H. lia.
Qed.

(** X2: in every state a back end reaches from its construction at most
    one save timer is attached to the main loop, and the one attached
    carries the identifier in [m_timeout_id] and the interval of 300
    seconds. *)
Theorem at_most_one_save_timer
    (ops : list (Env * Op)) (now : Z) (next : positive) :
  (List.length (sources (snd (run ops (constructor (boot now next))))) <= 1)%nat /\
  Forall
    (fun src =>
       Z.pos (source_id src) =
         m_timeout_id (fst (run ops (constructor (boot now next)))) /\
       source_interval src = 300)
    (sources (snd (run ops (constructor (boot now next))))).
Proof.
  pose proof (run_scheduled ops (constructor (boot now next))
                (constructor_scheduled (boot now next) eq_refl)) as H.
  destruct H as [[_ Hs] | (id & Hid & Hs)]; rewrite Hs.
  - split; [cbn; lia | constructor].
  - split; [cbn; lia|]. repeat constructor. now rewrite Hid.
Qed.

(** X3: calling [modified] again while a save is pending, however much
    later, only restarts the timer: the identifier and the sources stay
    as they are and no second timer is added. *)
Theorem modified_again_only_restarts_timer
    (self : LibPinyinBackEnd) (w : World) (later : N) :
  m_timeout_id
    (fst (modified (fst (modified self w)) (wait later (snd (modified self w))))) =
  m_timeout_id (fst (modified self w)) /\
  sources
    (snd (modified (fst (modified self w)) (wait later (snd (modified self w))))) =
  sources (snd (modified self w)) /\
  timer_start
    (m_timer
       (fst (modified (fst (modified self w))
               (wait later (snd (modified self w)))))) =
  clock w + Z.of_N later /\
  trace
    (snd (modified (fst (modified self w)) (wait later (snd (modified self w))))) =
  trace (snd (modified self w)) ++ [(clock w + Z.of_N later, Ev_g_timer_start)].
Proof.
  assert (Hid : m_timeout_id (fst (modified self w)) <> 0).
  { rewrite modified_eq. destruct (Z.eqb_spec (m_timeout_id self) 0);
      cbn [fst set_m_timeout_id set_m_timer m_timeout_id]; [discriminate | auto]. }
  assert (Hc : clock (snd (modified self w)) = clock w).
  { rewrite modified_eq. destruct (m_timeout_id self =? 0); reflexivity. }
  apply Z.eqb_neq in Hid.
  rewrite (modified_eq (fst (modified self w))). rewrite Hid.
  cbn [fst snd set_m_timer m_timeout_id m_timer timer_start emit wait sources
       trace clock].
  rewrite Hc. auto.
Qed.

(** X4: as long as the seconds passed fit the 32 bits of the cast,
    [timeoutCallback] saves and answers [FALSE] exactly from 300 seconds
    after the timer was started: at 300 seconds sharp it saves, clears
    [m_timeout_id] and stops; one microsecond earlier it answers [TRUE]
    and changes nothing. *)
Theorem save_due_from_300_seconds
    (env : Env) (self : LibPinyinBackEnd) (w : World) :
  timer_start (m_timer self) <= clock w ->
  clock w - timer_start (m_timer self) < 2 ^ 32 * 1000000 ->
  (fst (fst (timeoutCallback env self w)) = FALSE <->
   timer_start (m_timer self) + 300000000 <= clock w) /\
  (timer_start (m_timer self) + 300000000 <= clock w ->
   timeoutCallback env self w =
     (FALSE, set_m_timeout_id 0 self, snd (saveUserDB env self w))) /\
  (clock w < timer_start (m_timer self) + 300000000 ->
   timeoutCallback env self w = (TRUE, self, w)).
Proof.
  intros Hle Hlt. split; [|split].
  - split.
    + intros H.
      destruct (Z.le_gt_cases (timer_start (m_timer self) + 300000000)
                  (clock w)) as [E|E]; [exact E|].
      rewrite (timeoutCallback_early env self w Hle E) in H. discriminate H.
    + intros H. now rewrite (timeoutCallback_late env self w H Hlt).
  - intros H. exact (timeoutCallback_late env self w H Hlt).
  - intros H. exact (timeoutCallback_early env self w Hle H).
Qed.

(** ** More about the contexts *)

Lemma step_trace (env : Env) (op : Op) (b : LibPinyinBackEnd) (w : World) :
  trace (snd (step env op (b, w))) =
  trace w ++ stamp (clock w) (step_events env op b w).
Proof.
  destruct op; cbn [step step_events].
  - destruct (m_pinyin_context b) as [c|] eqn:E.
    + rewrite (allocPinyinInstance_existing env b w c E). apply trace_emits.
    + rewrite (allocPinyinInstance_first env b w E). apply trace_emits.
  - apply (trace_emits [Ev_pinyin_free_instance instance]).
  - destruct (m_chewing_context b) as [c|] eqn:E.
    + rewrite (allocChewingInstance_existing env b w c E). apply trace_emits.
    + rewrite (allocChewingInstance_first env b w E). apply trace_emits.
  - apply (trace_emits [Ev_pinyin_free_instance instance]).
  - rewrite setPinyinOptions_eq. destruct (m_pinyin_context b);
      [apply trace_emits | apply (trace_emits [])].
  - rewrite setChewingOptions_eq. destruct (m_chewing_context b);
      [apply trace_emits | apply (trace_emits [])].
  - rewrite modified_eq. destruct (m_timeout_id b =? 0); reflexivity.
  - rewrite saveUserDB_eq. apply trace_emits.
  - rewrite dispatch_eq. destruct (attached id w), (due b w); cbn [snd detach trace].
    + apply trace_emits.
    + reflexivity.
    + apply (trace_emits []).
    + apply (trace_emits []).
  - cbn [snd wait trace stamp map]. now rewrite app_nil_r.
Qed.

Ltac explicit_events :=
  unfold step_events, options_events, chewing_options_events, scheme_events,
    chewing_scheme_events, save_events, fini_events, contexts, context_list;
  repeat match goal with
         | |- context [match ?x with _ => _ end] => destruct x eqn:?
         end.

Lemma step_contexts (env : Env) (op : Op) (b : LibPinyinBackEnd) (w : World) :
  contexts (fst (step env op (b, w))) =
  context_list
    match op, m_pinyin_context b with
    | Op_allocPinyinInstance, None => init_retval env
    | _, context => context
    end
  ++ context_list
       match op, m_chewing_context b with
       | Op_allocChewingInstance, None => init_retval env
       | _, context => context
       end.
Proof.
  unfold contexts. now rewrite step_pinyin_context, step_chewing_context.
Qed.

Lemma step_created (env : Env) (op : Op) (b : LibPinyinBackEnd) (w : World) :
  (count_events is_created (trace (snd (step env op (b, w))))
   + List.length (contexts b)
   = count_events is_created (trace w)
     + List.length (contexts (fst (step env op (b, w)))))%nat.
Proof.
  rewrite step_trace, step_contexts, count_events_app.
  unfold contexts.
  destruct op; explicit_events; cbn; lia.
Qed.

Lemma step_finished (env : Env) (op : Op) (b : LibPinyinBackEnd) (w : World) :
  count_events is_fini (trace (snd (step env op (b, w)))) =
  count_events is_fini (trace w).
Proof.
  rewrite step_trace, count_events_app.
  destruct op; explicit_events; cbn; lia.
Qed.

Lemma run_context_accounting (ops : list (Env * Op)) (b : LibPinyinBackEnd)
    (w : World) :
  (count_events is_created (trace (snd (run ops (b, w))))
   + List.length (contexts b)
   = count_events is_created (trace w)
     + List.length (contexts (fst (run ops (b, w)))))%nat /\
  count_events is_fini (trace (snd (run ops (b, w)))) =
  count_events is_fini (trace w).
Proof.
  revert b w. induction ops as [|[env op] ops IH]; intros b w;
    [cbn [run fold_left fst snd]; lia|].
  rewrite run_cons. cbn [fst snd].
  pose proof (step_created env op b w) as Hc.
  pose proof (step_finished env op b w) as Hf.
  destruct (step env op (b, w)) as [b1 w1]. cbn [fst snd] in *.
  destruct (IH b1 w1) as [IHc IHf]. split; lia.
Qed.

(** X5: in every state a back end reaches from its construction, the
    contexts it holds are as many as the engine's init has given so far,
    and no context has been finished: a context the engine gave is
    never dropped, replaced or finished while the back end lives. *)
Theorem no_context_lost_while_alive
    (ops : list (Env * Op)) (now : Z) (next : positive) :
  count_events is_created
    (trace (snd (run ops (constructor (boot now next))))) =
  List.length (contexts (fst (run ops (constructor (boot now next))))) /\
  count_events is_fini
    (trace (snd (run ops (constructor (boot now next))))) = 0%nat.
Proof.
  destruct (run_context_accounting ops (fst (constructor (boot now next)))
              (snd (constructor (boot now next)))) as [Hc Hf].
  cbn [constructor g_timer_new fst snd] in *.
  change (count_events is_created (trace (emit Ev_g_timer_new (boot now next))))
    with 0%nat in Hc.
  change (count_events is_fini (trace (emit Ev_g_timer_new (boot now next))))
    with 0%nat in Hf.
  change (List.length
            (contexts
               {| m_timeout_id := 0;
                  m_timer := {| timer_start := clock (boot now next) |};
                  m_pinyin_context := None;
                  m_chewing_context := None |})) with 0%nat in Hc.
  split; [lia | exact Hf].
Qed.

Lemma run_context_kept (ops : list (Env * Op)) (b : LibPinyinBackEnd)
    (w : World) :
  (forall c, m_pinyin_context b = Some c ->
             m_pinyin_context (fst (run ops (b, w))) = Some c) /\
  (forall c, m_chewing_context b = Some c ->
             m_chewing_context (fst (run ops (b, w))) = Some c).
Proof.
  revert b w. induction ops as [|[env op] ops IH]; intros b w;
    [split; auto|].
  rewrite run_cons. cbn [fst snd].
  pose proof (step_pinyin_context env op b w) as Hp.
  pose proof (step_chewing_context env op b w) as Hc.
  destruct (step env op (b, w)) as [b1 w1]. cbn [fst] in *.
  destruct (IH b1 w1) as [IHp IHc]. split; intros c H.
  - apply IHp. rewrite Hp, H. destruct op; reflexivity.
  - apply IHc. rewrite Hc, H. destruct op; reflexivity.
Qed.

(** X6: once a family has its context, whatever is done to the back end
    afterwards (allocations with any answer of the engine, option
    changes, saves, timer callbacks) leaves that very context in place. *)
Theorem context_is_stable
    (ops : list (Env * Op)) (self : LibPinyinBackEnd) (w : World)
    (c : pinyin_context_t) :
  (m_pinyin_context self = Some c ->
   m_pinyin_context (fst (run ops (self, w))) = Some c) /\
  (m_chewing_context self = Some c ->
   m_chewing_context (fst (run ops (self, w))) = Some c).
Proof.
  destruct (run_context_kept ops self w) as [Hp Hc]. split; auto.
Qed.

Lemma step_calls_on_held (env : Env) (op : Op) (b : LibPinyinBackEnd)
    (w : World) :
  Forall
    (fun e =>
       forall c, event_context e = Some c ->
                 In c (contexts (fst (step env op (b, w)))))
    (step_events env op b w).
Proof.
  rewrite step_contexts.
  destruct op; explicit_events; cbn [app];
    repeat apply Forall_cons; try apply Forall_nil;
    cbn [event_context]; intros c0 Hc0; try discriminate Hc0;
    cbn [context_list app In]; intuition congruence.
Qed.

Lemma contexts_In (b : LibPinyinBackEnd) (c : pinyin_context_t) :
  In c (contexts b) <-> m_pinyin_context b = Some c \/ m_chewing_context b = Some c.
Proof.
  unfold contexts, context_list. rewrite in_app_iff.
  destruct (m_pinyin_context b), (m_chewing_context b); cbn [In];
    intuition congruence.
Qed.

Lemma run_contexts_grow (ops : list (Env * Op)) (b : LibPinyinBackEnd)
    (w : World) (c : pinyin_context_t) :
  In c (contexts b) -> In c (contexts (fst (run ops (b, w)))).
Proof.
  rewrite !contexts_In. destruct (run_context_kept ops b w) as [Hp Hc].
  intros [H|H]; [left; now apply Hp | right; now apply Hc].
Qed.

Lemma run_calls_on_held (ops : list (Env * Op)) (b : LibPinyinBackEnd)
    (w : World) :
  Forall (fun te => forall c, event_context (snd te) = Some c ->
                              In c (contexts b)) (trace w) ->
  Forall (fun te => forall c, event_context (snd te) = Some c ->
                              In c (contexts (fst (run ops (b, w)))))
    (trace (snd (run ops (b, w)))).
Proof.
  revert b w. induction ops as [|[env op] ops IH]; intros b w H; [exact H|].
  rewrite run_cons. cbn [fst snd].
  pose proof (step_trace env op b w) as Ht.
  pose proof (step_calls_on_held env op b w) as Hnew.
  pose proof (run_contexts_grow [(env, op)] b w) as Hgrow.
  rewrite run_cons in Hgrow. cbn [fst snd run fold_left] in Hgrow.
  destruct (step env op (b, w)) as [b1 w1]. cbn [fst snd] in *.
  apply IH. rewrite Ht. apply Forall_app. split.
  - eapply Forall_impl; [|exact H]. cbn beta. intros te Hte c Hc.
    apply Hgrow. now apply Hte.
  - unfold stamp. rewrite Forall_map. exact Hnew.
Qed.

(** X7: every call the back end has made to the engine on a context
    (setting a scheme or options, saving, allocating an instance) was
    made on a context it holds: no call goes to a context of another
    origin. *)
Theorem engine_calls_only_on_held_contexts
    (ops : list (Env * Op)) (now : Z) (next : positive) :
  Forall
    (fun te =>
       forall c, event_context (snd te) = Some c ->
                 In c (contexts (fst (run ops (constructor (boot now next))))))
    (trace (snd (run ops (constructor (boot now next))))).
Proof.
  apply (run_calls_on_held ops (fst (constructor (boot now next)))
           (snd (constructor (boot now next)))).
  cbn. repeat constructor. intros c H. discriminate H.
Qed.

(** ** More about the process *)

Lemma destructor_trace (env : Env) (b : LibPinyinBackEnd) (w : World) :
  trace (snd (destructor env b w)) =
  trace w
  ++ stamp (clock w)
       ([Ev_g_timer_destroy]
        ++ (if m_timeout_id b =? 0 then []
            else save_events env b ++ [Ev_g_source_remove (m_timeout_id b)])
        ++ fini_events b).
Proof.
  rewrite destructor_eq. cbn [snd]. unfold g_source_remove.
  destruct (m_timeout_id b =? 0); cbn [negb];
    repeat (rewrite ?trace_emits, ?clock_emits; cbn [trace emit detach clock]);
    unfold stamp; rewrite ?map_app; cbn [map app]; rewrite <- ?app_assoc;
    reflexivity.
Qed.

Lemma destructor_contexts (env : Env) (b : LibPinyinBackEnd) (w : World) :
  count_events is_created (trace (snd (destructor env b w))) =
  count_events is_created (trace w) /\
  count_events is_fini (trace (snd (destructor env b w))) =
  (count_events is_fini (trace w) + List.length (contexts b))%nat.
Proof.
  rewrite destructor_trace, !count_events_app.
  destruct (m_timeout_id b =? 0); explicit_events; cbn; lia.
Qed.

(** What holds of the process at every point it can reach. *)
Lemma process_step_sound (env : Env) (op : ProcessOp) (p p' : Process) :
  process_step env op p = Some p' ->
  process_scheduled p /\
  count_events is_created (trace (world p)) =
    (count_events is_fini (trace (world p))
     + List.length (registered_contexts p))%nat ->
  process_scheduled p' /\
  count_events is_created (trace (world p')) =
    (count_events is_fini (trace (world p'))
     + List.length (registered_contexts p'))%nat.
Proof.
  unfold process_scheduled, registered_contexts.
  destruct op; cbn [process_step].
  - unfold init. destruct (m_instance p); [discriminate|].
    intros [= <-] [Hs Hc].
    cbn [constructor g_timer_new world m_instance trace emit].
    split; [left; cbn; auto|].
    rewrite count_events_app, count_events_app. cbn in *. lia.
  - intros [= <-] [Hs Hc]. unfold finalize.
    destruct (m_instance p) as [b|] eqn:E; [|rewrite E; auto].
    cbn [world m_instance]. split; [now apply destructor_sources|].
    destruct (destructor_contexts env b (world p)) as [H1 H2].
    rewrite H1, H2. cbn [List.length]. lia.
  - destruct (m_instance p) as [b|]; [|discriminate].
    pose proof (step_scheduled env op b (world p)) as Hs1.
    pose proof (step_created env op b (world p)) as Hc1.
    pose proof (step_finished env op b (world p)) as Hf1.
    destruct (step env op (b, world p)) as [b' w'].
    intros [= <-] [Hs Hc]. cbn [world m_instance fst snd] in *.
    split; [auto | lia].
Qed.

Lemma process_run_sound (ops : list (Env * ProcessOp)) (p p' : Process) :
  process_run ops p = Some p' ->
  process_scheduled p /\
  count_events is_created (trace (world p)) =
    (count_events is_fini (trace (world p))
     + List.length (registered_contexts p))%nat ->
  process_scheduled p' /\
  count_events is_created (trace (world p')) =
    (count_events is_fini (trace (world p'))
     + List.length (registered_contexts p'))%nat.
Proof.
  revert p. induction ops as [|[env op] ops IH]; intros p; cbn [process_run].
  - now intros [= <-].
  - destruct (process_step env op p) as [p1|] eqn:E; [|discriminate].
    intros H I. apply (IH p1 H). exact (process_step_sound env op p p1 E I).
Qed.

(** X8: whenever [finalize] is called, at any point the process can
    reach, no save timer of the back end stays attached to the main
    loop afterwards: the callback cannot run on a destroyed back end. *)
Theorem finalize_leaves_no_timer
    (ops : list (Env * ProcessOp)) (now : Z) (next : positive) (p : Process)
    (env : Env) :
  process_run ops (startup (boot now next)) = Some p ->
  sources (world (finalize env p)) = [] /\
  m_instance (finalize env p) = None.
Proof.
  intros H.
  destruct (process_run_sound ops _ p H) as [Hs _];
    [split; reflexivity|].
  unfold process_scheduled in Hs. unfold finalize.
  destruct (m_instance p) as [b|] eqn:E; cbn [world m_instance].
  - split; [now apply destructor_sources | reflexivity].
  - now rewrite E.
Qed.

(** X9: after [finalize], at any point the process can reach, as many
    contexts have been finished as the engine's init ever gave: teardown
    leaves no context of the engine behind. *)
Theorem finalize_finishes_every_context
    (ops : list (Env * ProcessOp)) (now : Z) (next : positive) (p : Process)
    (env : Env) :
  process_run ops (startup (boot now next)) = Some p ->
  count_events is_created (trace (world (finalize env p))) =
  count_events is_fini (trace (world (finalize env p))).
Proof.
  intros H.
  assert (H' : process_run (ops ++ [(env, POp_finalize)])
                 (startup (boot now next)) = Some (finalize env p)).
  { revert H. generalize (startup (boot now next)).
    induction ops as [|[e o] ops IH]; intros q; cbn [process_run app].
    - now intros [= ->].
    - destruct (process_step e o q); [apply IH | discriminate]. }
  destruct (process_run_sound _ _ _ H') as [_ Hc];
    [split; reflexivity|].
  rewrite Hc. unfold registered_contexts, finalize.
  destruct (m_instance p) as [b|] eqn:E; cbn [m_instance]; rewrite ?E;
    cbn [List.length]; lia.
Qed.

(** ** More about allocation and options *)

(** X10: the first Pinyin allocation creates [libpinyin] under the
    user's cache with mode 0700 and hands that directory to the engine's
    init if it could be created, and no user directory if it could not;
    the context is whatever init gives. *)
Theorem allocPinyinInstance_userdir_fallback
    (env : Env) (self : LibPinyinBackEnd) (w : World) :
  m_pinyin_context self = None ->
  m_pinyin_context (snd (fst (allocPinyinInstance env self w))) =
    init_retval env /\
  exists rest,
    trace (snd (allocPinyinInstance env self w)) =
    trace w
    ++ stamp (clock w)
         ([Ev_g_mkdir_with_parents
             (g_build_filename [home_dir env; ".cache"; "ibus"; "libpinyin"])
             448 (mkdir_retval env);
           Ev_pinyin_init "/usr/share/libpinyin/data"
             (if mkdir_retval env =? 0
              then Some (g_build_filename
                           [home_dir env; ".cache"; "ibus"; "libpinyin"])
              else None)
             (init_retval env)]
          ++ rest).
Proof.
  intros H. rewrite (allocPinyinInstance_first env self w H).
  cbn [fst snd set_m_pinyin_context m_pinyin_context].
  split; [reflexivity|]. rewrite trace_emits.
  destruct (mkdir_retval env =? 0); cbn [negb]; eexists; reflexivity.
Qed.

(** X11: an allocation answers what the engine's [pinyin_alloc_instance]
    answers, and that call is its last one, made on the context the back
    end then holds, also when that context is null. *)
Theorem alloc_returns_engine_instance
    (env : Env) (self : LibPinyinBackEnd) (w : World) :
  (fst (fst (allocPinyinInstance env self w)) = alloc_retval env /\
   exists before,
     trace (snd (allocPinyinInstance env self w)) =
     before
     ++ [(clock w,
          Ev_pinyin_alloc_instance
            (m_pinyin_context (snd (fst (allocPinyinInstance env self w))))
            (alloc_retval env))]) /\
  (fst (fst (allocChewingInstance env self w)) = alloc_retval env /\
   exists before,
     trace (snd (allocChewingInstance env self w)) =
     before
     ++ [(clock w,
          Ev_pinyin_alloc_instance
            (m_chewing_context (snd (fst (allocChewingInstance env self w))))
            (alloc_retval env))]).
Proof.
  split.
  - destruct (m_pinyin_context self) as [c|] eqn:E.
    + rewrite (allocPinyinInstance_existing env self w c E).
      cbn [fst snd]. rewrite E, trace_emits. split; [reflexivity|].
      unfold stamp. rewrite map_app, app_assoc. eexists. reflexivity.
    + rewrite (allocPinyinInstance_first env self w E).
      cbn [fst snd set_m_pinyin_context m_pinyin_context].
      rewrite trace_emits. split; [reflexivity|].
      unfold stamp. rewrite app_assoc, map_app, app_assoc.
      eexists. reflexivity.
  - destruct (m_chewing_context self) as [c|] eqn:E.
    + rewrite (allocChewingInstance_existing env self w c E).
      cbn [fst snd]. rewrite E, trace_emits. split; [reflexivity|].
      unfold stamp. rewrite map_app, app_assoc. eexists. reflexivity.
    + rewrite (allocChewingInstance_first env self w E).
      cbn [fst snd set_m_chewing_context m_chewing_context].
      rewrite trace_emits. split; [reflexivity|].
      unfold stamp. rewrite app_assoc, map_app, app_assoc.
      eexists. reflexivity.
Qed.

Lemma chewing_scheme_of_selector_range (map : Z) :
  chewing_scheme_of_selector map <> None <-> 0 <= map <= 3.
Proof.
  unfold chewing_scheme_of_selector.
  destruct (Z.eqb_spec map 0); [split; [lia | discriminate]|].
  destruct (Z.eqb_spec map 1); [split; [lia | discriminate]|].
  destruct (Z.eqb_spec map 2); [split; [lia | discriminate]|].
  destruct (Z.eqb_spec map 3); [split; [lia | discriminate]|].
  split; [congruence | lia].
Qed.

Lemma chewing_scheme_of_selector_table (map : Z) :
  chewing_scheme_of_selector map =
  option_map snd (find (fun entry => map =? fst entry) chewing_options).
Proof.
  unfold chewing_scheme_of_selector. cbn [find chewing_options fst].
  destruct (map =? 0); [reflexivity|].
  destruct (map =? 1); [reflexivity|].
  destruct (map =? 2); [reflexivity|].
  destruct (map =? 3); reflexivity.
Qed.

(** X12: on a Bopomofo context [setChewingOptions] sets the scheme of
    the table for a selector from 0 to 3 (STANDARD, GINYIEH, ETEN, IBM),
    sets no scheme for any other selector, and then pushes the
    configuration's flags as they are, with no flag added. *)
Theorem setChewingOptions_mapping
    (config : Config) (self : LibPinyinBackEnd) (w : World)
    (c : pinyin_context_t) :
  m_chewing_context self = Some c ->
  setChewingOptions config self w =
    (TRUE,
     emits (match chewing_scheme_of_selector (bopomofoKeyboardMapping config) with
            | Some scheme => [Ev_pinyin_set_chewing_scheme c scheme]
            | None => []
            end
            ++ [Ev_pinyin_set_options c (config_option config)]) w) /\
  (chewing_scheme_of_selector (bopomofoKeyboardMapping config) <> None <->
   0 <= bopomofoKeyboardMapping config <= 3) /\
  chewing_scheme_of_selector (bopomofoKeyboardMapping config) =
    option_map snd
      (find (fun entry => bopomofoKeyboardMapping config =? fst entry)
         chewing_options) /\
  map chewing_scheme_of_selector [0; 1; 2; 3] =
    [Some CHEWING_STANDARD; Some CHEWING_GINYIEH; Some CHEWING_ETEN;
     Some CHEWING_IBM].
Proof.
  intros H. rewrite setChewingOptions_eq, H.
  split; [reflexivity|].
  split; [apply chewing_scheme_of_selector_range|].
  split; [apply chewing_scheme_of_selector_table | reflexivity].
Qed.

(** X13: an allocation for one family leaves the other family's context
    field as it was and makes no engine call on a context other than
    its own family's. *)
Theorem alloc_family_independence
    (env : Env) (self : LibPinyinBackEnd) (w : World) :
  (m_chewing_context (snd (fst (allocPinyinInstance env self w))) =
     m_chewing_context self /\
   exists d,
     trace (snd (allocPinyinInstance env self w)) =
       trace w ++ stamp (clock w) d /\
     Forall
       (fun e =>
          forall c, event_context e = Some c ->
            m_pinyin_context (snd (fst (allocPinyinInstance env self w))) =
            Some c) d) /\
  (m_pinyin_context (snd (fst (allocChewingInstance env self w))) =
     m_pinyin_context self /\
   exists d,
     trace (snd (allocChewingInstance env self w)) =
       trace w ++ stamp (clock w) d /\
     Forall
       (fun e =>
          forall c, event_context e = Some c ->
            m_chewing_context (snd (fst (allocChewingInstance env self w))) =
            Some c) d).
Proof.
  split.
  - destruct (m_pinyin_context self) as [c|] eqn:E.
    + rewrite (allocPinyinInstance_existing env self w c E). cbn [fst snd].
      split; [reflexivity|]. eexists. split; [apply trace_emits|].
      rewrite E. explicit_events; cbn [app];
        repeat apply Forall_cons; try apply Forall_nil;
        cbn [event_context]; intros ? ?; congruence.
    + rewrite (allocPinyinInstance_first env self w E).
      cbn [fst snd set_m_pinyin_context m_pinyin_context m_chewing_context].
      split; [reflexivity|]. eexists. split; [apply trace_emits|].
      explicit_events; cbn [app];
        repeat apply Forall_cons; try apply Forall_nil;
        cbn [event_context]; intros ? ?; congruence.
  - destruct (m_chewing_context self) as [c|] eqn:E.
    + rewrite (allocChewingInstance_existing env self w c E). cbn [fst snd].
      split; [reflexivity|]. eexists. split; [apply trace_emits|].
      rewrite E. explicit_events; cbn [app];
        repeat apply Forall_cons; try apply Forall_nil;
        cbn [event_context]; intros ? ?; congruence.
    + rewrite (allocChewingInstance_first env self w E).
      cbn [fst snd set_m_chewing_context m_pinyin_context m_chewing_context].
      split; [reflexivity|]. eexists. split; [apply trace_emits|].
      explicit_events; cbn [app];
        repeat apply Forall_cons; try apply Forall_nil;
        cbn [event_context]; intros ? ?; congruence.
Qed.

(** X14: allocating or freeing an instance, setting options and
    [saveUserDB] called directly never touch the save timer: the clock
    of the last modification, [m_timeout_id] and the sources of the main
    loop stay as they are, so a pending save stays pending. *)
Theorem engine_operations_leave_timer_alone
    (env : Env) (op : Op) (self : LibPinyinBackEnd) (w : World) :
  engine_only op = true ->
  m_timeout_id (fst (step env op (self, w))) = m_timeout_id self /\
  m_timer (fst (step env op (self, w))) = m_timer self /\
  sources (snd (step env op (self, w))) = sources w /\
  pending (fst (step env op (self, w))) (snd (step env op (self, w))) =
    pending self w.
Proof.
  intros H. unfold pending.
  rewrite step_timeout_id, step_timer, step_sources.
  destruct op; try discriminate H; auto.
Qed.

End BackEnd.

(** * The Lua test harness *)

(** X15: [report] answers the status it was given.  With status zero it
    asks the interpreter nothing and writes nothing; with another status
    and nil on top of the stack it only asks for that, writes nothing
    and pops nothing. *)
Theorem report_silent_without_error_object
    (env : LuaEnv) (L : option lua_State) (status : Z) (log : list LuaEvent) :
  fst (report env L status log) = status /\
  (status = 0 -> snd (report env L status log) = log) /\
  (status <> 0 -> top_is_nil env = true ->
   snd (report env L status log) = log ++ [Lev_lua_isnil L (-1) true]).
Proof.
  unfold report. split; [|split].
  - destruct (negb (status =? 0)), (negb (top_is_nil env)); reflexivity.
  - intros ->. reflexivity.
  - intros Hs Hn. apply Z.eqb_neq in Hs. rewrite Hs, Hn. reflexivity.
Qed.

(** X16: with a status other than zero and an error object on top of
    the stack, [report] writes the program name, a colon and the message
    on one line of stderr (the text of the object, or a fixed text when
    the object has none), flushes, and pops exactly that one object. *)
Theorem report_writes_error_message
    (env : LuaEnv) (L : option lua_State) (status : Z) (log : list LuaEvent) :
  status <> 0 ->
  top_is_nil env = false ->
  snd (report env L status log) =
  log
  ++ [Lev_lua_isnil L (-1) false;
      Lev_lua_tostring L (-1) (top_tostring env);
      Lev_fprintf_stderr "test-lua-plugin: ";
      Lev_fprintf_stderr
        (match top_tostring env with
         | Some text => text
         | None => "(error object is not a string)"
         end ++ newline)%string;
      Lev_fflush_stderr;
      Lev_lua_pop L 1].
Proof.
  intros Hs Hn. unfold report, l_message. apply Z.eqb_neq in Hs.
  rewrite Hs, Hn. cbn [negb snd]. rewrite <- !app_assoc.
  destruct (top_tostring env); reflexivity.
Qed.

(** X17: whatever the interpreter answers, [main] exits with status 0:
    a failing test script shows on stderr only.  It opens the
    interpreter, initialises the plugin, runs [test.lua], writes that it
    is done before any error message, finalises the plugin last, and
    never closes the interpreter; the state [lua_open] gives is used
    unchecked. *)
Theorem main_exit_status_ignores_test (env : LuaEnv) :
  fst (main env) = 0 /\
  (exists reported,
     snd (main env) =
       [Lev_printf ("starting test..." ++ newline)%string;
        Lev_lua_open (lua_open_retval env);
        Lev_lua_plugin_init (lua_open_retval env);
        Lev_luaL_dofile (lua_open_retval env) "test.lua" (dofile_status env);
        Lev_fprintf_stderr ("test.lua done." ++ newline)%string]
       ++ reported
       ++ [Lev_lua_plugin_fini (lua_open_retval env)] /\
     snd (report env (lua_open_retval env) (dofile_status env)
            [Lev_printf ("starting test..." ++ newline)%string;
             Lev_lua_open (lua_open_retval env);
             Lev_lua_plugin_init (lua_open_retval env);
             Lev_luaL_dofile (lua_open_retval env) "test.lua"
               (dofile_status env);
             Lev_fprintf_stderr ("test.lua done." ++ newline)%string]) =
       [Lev_printf ("starting test..." ++ newline)%string;
        Lev_lua_open (lua_open_retval env);
        Lev_lua_plugin_init (lua_open_retval env);
        Lev_luaL_dofile (lua_open_retval env) "test.lua" (dofile_status env);
        Lev_fprintf_stderr ("test.lua done." ++ newline)%string]
       ++ reported) /\
  Forall (fun e => match e with
                   | Lev_lua_close _ => False
                   | _ => True
                   end) (snd (main env)).
Proof.
  unfold main, run_test, report, l_message.
  destruct (negb (dofile_status env =? 0)), (negb (top_is_nil env));
    cbn [fst snd app]; (split; [reflexivity|]); split;
    try (eexists; split; [|reflexivity]; reflexivity);
    repeat (apply Forall_cons; [exact I|]); apply Forall_nil.
Qed.

Lemma string_append_assoc (a b c : string) :
  ((a ++ b) ++ c = a ++ (b ++ c))%string.
Proof.
  induction a as [|ch a IH]; cbn [String.append]; [reflexivity|].
  now rewrite IH.
Qed.

(** X18: [run_test] answers the status of running the file, and what it
    writes to stderr is the line saying the file is done, followed, only
    when the status is not zero and an error object is on the stack, by
    the line with the program name and the message. *)
Theorem run_test_stderr
    (env : LuaEnv) (L : option lua_State) (filename : string) :
  fst (run_test env L filename []) = dofile_status env /\
  stderr_text (snd (run_test env L filename [])) =
  (filename ++ " done." ++ newline
   ++ (if negb (Z.eqb (dofile_status env) 0) && negb (top_is_nil env)
       then "test-lua-plugin: "
            ++ match top_tostring env with
               | Some text => text
               | None => "(error object is not a string)"
               end ++ newline
       else ""))%string.
Proof.
  unfold run_test, report, l_message, stderr_text.
  destruct (negb (dofile_status env =? 0)), (negb (top_is_nil env));
    cbn [fst snd app flat_map String.concat andb];
    (split; [reflexivity|]);
    rewrite ?string_append_assoc; cbn [String.append]; try reflexivity.
Qed.

(** * Instances

    The theorems above at sample inputs; the header flag is taken to be
    128 here. *)

Example three_modified_one_save :
  stop_times
    (trace (snd (run 128 sample_quiet
                   (run 128 ((sample_env, Op_modified) :: sample_burst)
                      (constructor (boot 0 1)))))) = [600000000].
Proof.
  vm_compute. reflexivity.
Qed.


Lemma allocChewingInstance_ignores_userdir_witness :
  m_chewing_context (fst (constructor (boot 0 1))) = None /\
  exists rest,
    trace (snd (allocChewingInstance sample_env (fst (constructor (boot 0 1)))
                  (snd (constructor (boot 0 1))))) =
    trace (snd (constructor (boot 0 1)))
    ++ stamp 0
         ([Ev_g_mkdir_with_parents "/home/user/.cache/ibus/libbopomofo" 448 0;
           Ev_pinyin_init "/usr/share/libpinyin/data" None (Some 7%positive)]
          ++ rest).
Proof.
  split; [reflexivity|].
  apply (allocChewingInstance_ignores_userdir sample_env
           (fst (constructor (boot 0 1))) (snd (constructor (boot 0 1)))).
  reflexivity.
Defined.

(** The Pinyin path, for comparison, hands the directory to the engine. *)
Example allocPinyinInstance_passes_userdir :
  map snd
    (trace (snd (allocPinyinInstance 128 sample_env
                   (fst (constructor (boot 0 1))) (boot 0 1)))) =
  [ Ev_g_mkdir_with_parents "/home/user/.cache/ibus/libpinyin" 448 0;
    Ev_pinyin_init "/usr/share/libpinyin/data"
      (Some "/home/user/.cache/ibus/libpinyin") (Some 7%positive);
    Ev_pinyin_set_double_pinyin_scheme 7%positive DOUBLE_PINYIN_ZRM;
    Ev_pinyin_set_options 7%positive 133;
    Ev_pinyin_alloc_instance (Some 7%positive) (Some 9%positive) ].
Proof.
  vm_compute. reflexivity.
Qed.

(** C3, at process start followed by one [init]: the call passes its
    assertion and two back ends are alive, the static object
    [libpinyin_backend] and the registered instance, not one; a second
    [init] then fails its assertion. *)
Theorem init_leaves_two_instances :
  exists p,
    process_run 128 [(sample_env, POp_init)] (startup (boot 0 1)) = Some p /\
    List.length (instances p) = 2%nat /\
    live_backends (trace (world p)) = 2 /\
    ~ (List.length (instances p) <= 1)%nat /\
    init p = None.
Proof.
  eexists. split; [reflexivity|]. cbn. repeat split. lia.
Qed.

Example instances_along_a_run :
  exists p,
    process_run 128 sample_process_ops (startup (boot 0 1)) = Some p /\
    live_backends (trace (world p)) = Z.of_nat (List.length (instances p)) /\
    (1 <= List.length (instances p) <= 2)%nat /\
    (List.length (instances p) = 2%nat <-> m_instance p <> None) /\
    (m_instance p <> None -> init p = None).
Proof.
  eexists. split; [reflexivity|].
  apply (static_and_registered_instances 128 sample_process_ops 0 1).
  reflexivity.
Qed.

(** An allocation happened, the engine's init gave NULL, and no context
    exists. *)
Lemma lazy_context_counterexample :
  ~ (m_pinyin_context
       (fst (run 128 [(failing_env, Op_allocPinyinInstance)]
               (constructor (boot 0 1)))) <> None <->
     Exists (fun eo => snd eo = Op_allocPinyinInstance)
       [(failing_env, Op_allocPinyinInstance)]).
Proof.
  intros [_ H]. apply H; [|reflexivity].
  constructor. reflexivity.
Qed.

Lemma lazy_context_creation_witness :
  m_pinyin_context
    (snd (fst (allocPinyinInstance 128 sample_env
                 (fst (constructor (boot 0 1))) (boot 0 1)))) = Some 7%positive /\
  exists d,
    allocPinyinInstance 128 other_env
      (snd (fst (allocPinyinInstance 128 sample_env
                   (fst (constructor (boot 0 1))) (boot 0 1))))
      (boot 5 1) =
    (alloc_retval other_env,
     snd (fst (allocPinyinInstance 128 sample_env
                 (fst (constructor (boot 0 1))) (boot 0 1))),
     emits d (boot 5 1)) /\
    Forall (fun e => is_init e = false) d.
Proof.
  split; [reflexivity|].
  destruct (lazy_context_creation 128 [] (boot 0 1) other_env
              (snd (fst (allocPinyinInstance 128 sample_env
                           (fst (constructor (boot 0 1))) (boot 0 1))))
              (boot 5 1) 7%positive) as (_ & _ & _ & H & _).
  apply H. reflexivity.
Defined.

(** The engine's init gave NULL: the allocation pushes no flags. *)
Lemma pinyin_options_counterexample :
  ~ exists c,
      In (Ev_pinyin_set_options c
            (Z.lor (config_option (pinyin_config failing_env)) 128))
        (map snd
           (trace (snd (allocPinyinInstance 128 failing_env
                          (fst (constructor (boot 0 1))) (boot 0 1))))).
Proof.
  intros [c H]. vm_compute in H.
  destruct H as [H|[H|[H|[]]]]; discriminate H.
Qed.

Lemma pinyin_options_reapplied_witness :
  m_pinyin_context
    (snd (fst (allocPinyinInstance 128 sample_env
                 (fst (constructor (boot 0 1))) (boot 0 1)))) = Some 7%positive /\
  current_scheme 7%positive
    (map snd (trace (snd (allocPinyinInstance 128 sample_env
                            (fst (constructor (boot 0 1))) (boot 0 1))))) =
  match scheme_of_selector (doublePinyinSchema (pinyin_config sample_env)) with
  | Some scheme => Some scheme
  | None => current_scheme 7%positive (map snd (trace (boot 0 1)))
  end.
Proof.
  split; [reflexivity|].
  destruct (pinyin_options_reapplied 128 sample_env
              (fst (constructor (boot 0 1))) (boot 0 1) 7%positive eq_refl)
    as (_ & H & _).
  exact H.
Defined.

(** A selector outside the table keeps the scheme set before. *)
Example unmatched_selector_keeps_scheme :
  current_scheme 7%positive
    (map snd
       (trace (snd (run 128 [(sample_env, Op_allocPinyinInstance);
                             (other_env, Op_allocPinyinInstance)]
                      (constructor (boot 0 1)))))) = Some DOUBLE_PINYIN_ZRM.
Proof.
  vm_compute. reflexivity.
Qed.

(** The destructor of a back end with a save pending: the timer is
    gone, [m_timeout_id] is still 1. *)
Lemma pending_timer_counterexample :
  ~ (m_timeout_id
       (fst (destructor sample_env
               (fst (modified (fst (constructor (boot 0 1)))
                       (snd (constructor (boot 0 1)))))
               (snd (modified (fst (constructor (boot 0 1)))
                       (snd (constructor (boot 0 1))))))) <> 0 <->
     sources
       (snd (destructor sample_env
               (fst (modified (fst (constructor (boot 0 1)))
                       (snd (constructor (boot 0 1)))))
               (snd (modified (fst (constructor (boot 0 1)))
                       (snd (constructor (boot 0 1))))))) <> []).
Proof.
  intros [H _]. vm_compute in H. apply H; [discriminate | reflexivity].
Qed.

Lemma pending_timer_invariant_witness :
  (m_timeout_id
     (fst (run 128 [(sample_env, Op_modified)] (constructor (boot 0 1)))) <> 0 /\
   sources
     (snd (run 128 [(sample_env, Op_modified)] (constructor (boot 0 1)))) <> []) /\
  (forall src,
     In src
       (sources
          (snd (run 128 [(sample_env, Op_modified)] (constructor (boot 0 1))))) ->
     Z.pos (source_id src) =
       m_timeout_id
         (fst (run 128 [(sample_env, Op_modified)] (constructor (boot 0 1))))) /\
  sources
    (snd (destructor sample_env
            (fst (run 128 [(sample_env, Op_modified)] (constructor (boot 0 1))))
            (snd (run 128 [(sample_env, Op_modified)] (constructor (boot 0 1))))))
    = [].
Proof.
  destruct (pending_timer_invariant 128 [(sample_env, Op_modified)] 0 1
              sample_env) as (_ & Hiff & Hsrc & _ & _ & Hd).
  split; [split; [discriminate | apply Hiff; discriminate]|].
  split; [exact Hsrc | exact Hd].
Defined.

Lemma forced_save_at_teardown_witness :
  m_timeout_id
    (fst (run 128 [(sample_env, Op_allocPinyinInstance);
                   (sample_env, Op_modified)]
            (constructor (boot 0 1)))) <> 0 /\
  map snd
    (trace (snd (destructor sample_env
                   (fst (run 128 [(sample_env, Op_allocPinyinInstance);
                                  (sample_env, Op_modified)]
                           (constructor (boot 0 1))))
                   (boot 9 2)))) =
  [Ev_g_timer_destroy; Ev_pinyin_save 7%positive false; Ev_g_source_remove 1;
   Ev_pinyin_fini 7%positive].
Proof.
  split; [discriminate|].
  destruct (forced_save_at_teardown sample_env
              (fst (run 128 [(sample_env, Op_allocPinyinInstance);
                             (sample_env, Op_modified)]
                      (constructor (boot 0 1))))
              (fst (constructor (boot 0 1))) (boot 9 2)) as (H & _ & _).
  destruct H as [H _]; [discriminate|].
  rewrite H. reflexivity.
Defined.

Lemma option_setters_null_guard_witness :
  setPinyinOptions 128 sample_config (fst (constructor (boot 0 1))) (boot 0 1) =
    (false, boot 0 1) /\
  setChewingOptions sample_config (fst (constructor (boot 0 1))) (boot 0 1) =
    (false, boot 0 1) /\
  fst (setPinyinOptions 128 sample_config
         (set_m_pinyin_context (Some 7%positive) (fst (constructor (boot 0 1))))
         (boot 0 1)) = true /\
  fst (setChewingOptions sample_config
         (set_m_chewing_context (Some 8%positive) (fst (constructor (boot 0 1))))
         (boot 0 1)) = true.
Proof.
  destruct (option_setters_null_guard 128 sample_config
              (fst (constructor (boot 0 1))) (boot 0 1)) as (H1 & _ & H3 & _).
  destruct (option_setters_null_guard 128 sample_config
              (set_m_pinyin_context (Some 7%positive)
                 (fst (constructor (boot 0 1)))) (boot 0 1)) as (_ & H2 & _).
  destruct (option_setters_null_guard 128 sample_config
              (set_m_chewing_context (Some 8%positive)
                 (fst (constructor (boot 0 1)))) (boot 0 1)) as (_ & _ & _ & H4).
  split; [apply H1; reflexivity|].
  split; [apply H3; reflexivity|].
  split; [apply H2; discriminate | apply H4; discriminate].
Defined.

Lemma finalize_without_instance_witness :
  m_instance (startup (boot 0 1)) = None /\
  finalize sample_env (startup (boot 0 1)) = startup (boot 0 1).
Proof.
  split; [reflexivity|].
  destruct (finalize_without_instance sample_env (startup (boot 0 1)))
    as (H & _).
  apply H. reflexivity.
Defined.

Lemma save_due_from_300_seconds_witness :
  (timer_start (m_timer (fst (constructor (boot 0 1)))) <= clock (boot 300000000 1) /\
   clock (boot 300000000 1) - timer_start (m_timer (fst (constructor (boot 0 1))))
   < 2 ^ 32 * 1000000) /\
  timeoutCallback sample_env (fst (constructor (boot 0 1))) (boot 300000000 1) =
    (false, set_m_timeout_id 0 (fst (constructor (boot 0 1))),
     snd (saveUserDB sample_env (fst (constructor (boot 0 1)))
            (boot 300000000 1))) /\
  timeoutCallback sample_env (fst (constructor (boot 0 1))) (boot 299999999 1) =
    (true, fst (constructor (boot 0 1)), boot 299999999 1).
Proof.
  split; [split; [discriminate | reflexivity]|].
  destruct (save_due_from_300_seconds sample_env (fst (constructor (boot 0 1)))
              (boot 300000000 1)) as (_ & Hlate & _);
    [discriminate | reflexivity|].
  destruct (save_due_from_300_seconds sample_env (fst (constructor (boot 0 1)))
              (boot 299999999 1)) as (_ & _ & Hearly);
    [discriminate | reflexivity|].
  split; [apply Hlate; discriminate | apply Hearly; reflexivity].
Defined.

Lemma context_is_stable_witness :
  m_pinyin_context
    (fst (run 128 [(sample_env, Op_allocPinyinInstance)]
            (constructor (boot 0 1)))) = Some 7%positive /\
  m_pinyin_context
    (fst (run 128 [(failing_env, Op_allocPinyinInstance);
                   (other_env, Op_setPinyinOptions sample_config);
                   (sample_env, Op_modified)]
            (run 128 [(sample_env, Op_allocPinyinInstance)]
               (constructor (boot 0 1))))) = Some 7%positive.
Proof.
  split; [reflexivity|].
  destruct (context_is_stable 128
              [(failing_env, Op_allocPinyinInstance);
               (other_env, Op_setPinyinOptions sample_config);
               (sample_env, Op_modified)]
              (fst (run 128 [(sample_env, Op_allocPinyinInstance)]
                      (constructor (boot 0 1))))
              (snd (run 128 [(sample_env, Op_allocPinyinInstance)]
                      (constructor (boot 0 1))))
              7%positive) as [H _].
  apply H. reflexivity.
Defined.

Lemma finalize_leaves_no_timer_witness :
  exists p,
    process_run 128
      [(sample_env, POp_init); (sample_env, POp_instance Op_modified)]
      (startup (boot 0 1)) = Some p /\
    sources (world p) <> [] /\
    sources (world (finalize sample_env p)) = [] /\
    m_instance (finalize sample_env p) = None.
Proof.
  eexists. split; [reflexivity|]. split; [discriminate|].
  apply (finalize_leaves_no_timer 128
           [(sample_env, POp_init); (sample_env, POp_instance Op_modified)]
           0 1).
  reflexivity.
Defined.

Lemma finalize_finishes_every_context_witness :
  exists p,
    process_run 128
      [(sample_env, POp_init);
       (sample_env, POp_instance Op_allocPinyinInstance);
       (sample_env, POp_instance Op_allocChewingInstance)]
      (startup (boot 0 1)) = Some p /\
    count_events is_created (trace (world (finalize sample_env p))) =
    count_events is_fini (trace (world (finalize sample_env p))).
Proof.
  eexists. split; [reflexivity|].
  apply (finalize_finishes_every_context 128
           [(sample_env, POp_init);
            (sample_env, POp_instance Op_allocPinyinInstance);
            (sample_env, POp_instance Op_allocChewingInstance)]
           0 1).
  reflexivity.
Defined.

Lemma allocPinyinInstance_userdir_fallback_witness :
  m_pinyin_context (fst (constructor (boot 0 1))) = None /\
  m_pinyin_context
    (snd (fst (allocPinyinInstance 128 sample_env
                 (fst (constructor (boot 0 1))) (boot 0 1)))) =
    init_retval sample_env /\
  exists rest,
    trace (snd (allocPinyinInstance 128 sample_env
                  (fst (constructor (boot 0 1))) (boot 0 1))) =
    trace (boot 0 1)
    ++ stamp 0
         ([Ev_g_mkdir_with_parents "/home/user/.cache/ibus/libpinyin" 448 0;
           Ev_pinyin_init "/usr/share/libpinyin/data"
             (Some "/home/user/.cache/ibus/libpinyin") (Some 7%positive)]
          ++ rest).
Proof.
  split; [reflexivity|].
  apply (allocPinyinInstance_userdir_fallback 128 sample_env
           (fst (constructor (boot 0 1))) (boot 0 1)).
  reflexivity.
Defined.

Lemma setChewingOptions_mapping_witness :
  m_chewing_context
    (set_m_chewing_context (Some 8%positive) (fst (constructor (boot 0 1)))) =
    Some 8%positive /\
  setChewingOptions sample_config
    (set_m_chewing_context (Some 8%positive) (fst (constructor (boot 0 1))))
    (boot 0 1) =
  (true,
   emits [Ev_pinyin_set_chewing_scheme 8%positive CHEWING_ETEN;
          Ev_pinyin_set_options 8%positive 5] (boot 0 1)).
Proof.
  split; [reflexivity|].
  destruct (setChewingOptions_mapping sample_config
              (set_m_chewing_context (Some 8%positive)
                 (fst (constructor (boot 0 1))))
              (boot 0 1) 8%positive eq_refl) as [H _].
  exact H.
Defined.

Lemma engine_operations_leave_timer_alone_witness :
  engine_only Op_saveUserDB = true /\
  pending
    (fst (step 128 sample_env Op_saveUserDB
            (modified (fst (constructor (boot 0 1))) (boot 0 1))))
    (snd (step 128 sample_env Op_saveUserDB
            (modified (fst (constructor (boot 0 1))) (boot 0 1)))) =
  pending (fst (modified (fst (constructor (boot 0 1))) (boot 0 1)))
          (snd (modified (fst (constructor (boot 0 1))) (boot 0 1))).
Proof.
  split; [reflexivity|].
  destruct (engine_operations_leave_timer_alone 128 sample_env Op_saveUserDB
              (fst (modified (fst (constructor (boot 0 1))) (boot 0 1)))
              (snd (modified (fst (constructor (boot 0 1))) (boot 0 1)))
              eq_refl) as (_ & _ & _ & H).
  exact H.
Defined.

Lemma report_silent_without_error_object_witness :
  snd (report sample_lua_failure (Some 1%positive) 0 []) = [] /\
  snd (report {| lua_open_retval := Some 1%positive;
                 dofile_status := 1;
                 top_is_nil := true;
                 top_tostring := None |} (Some 1%positive) 1 []) =
    [] ++ [Lev_lua_isnil (Some 1%positive) (-1) true].
Proof.
  destruct (report_silent_without_error_object sample_lua_failure
              (Some 1%positive) 0 []) as (_ & H0 & _).
  destruct (report_silent_without_error_object
              {| lua_open_retval := Some 1%positive;
                 dofile_status := 1;
                 top_is_nil := true;
                 top_tostring := None |} (Some 1%positive) 1 [])
    as (_ & _ & H1).
  split; [apply H0; reflexivity | apply H1; [discriminate | reflexivity]].
Defined.

Lemma report_writes_error_message_witness :
  (1 <> 0 /\ top_is_nil sample_lua_failure = false) /\
  snd (report sample_lua_failure (Some 1%positive) 1 []) =
  [] ++ [Lev_lua_isnil (Some 1%positive) (-1) false;
         Lev_lua_tostring (Some 1%positive) (-1) (Some "test.lua:3: boom");
         Lev_fprintf_stderr "test-lua-plugin: ";
         Lev_fprintf_stderr ("test.lua:3: boom" ++ newline)%string;
         Lev_fflush_stderr;
         Lev_lua_pop (Some 1%positive) 1].
Proof.
  split; [split; [discriminate | reflexivity]|].
  apply (report_writes_error_message sample_lua_failure (Some 1%positive) 1 []);
    [discriminate | reflexivity].
Defined.
